(** * AlueBot, [ext/management.py]: channel management commands

    A shallow embedding of the [ChannelManagement] component (the [!game] and
    [!title] commands, the [channel_update] and [stream_offline] listeners)
    and the properties of its title/game tracking.

    Conventions of the embedding.
    - A Python [str] is a [string], a non-ASCII code point being the bytes of
      its UTF-8 encoding. [lower] maps A-Z to a-z and leaves every other
      byte; Python's [str.lower] also lowers non-ASCII letters, but none of
      them to a letter of "clear", so the test [lower arg = "clear"] is the
      one the handler makes.
    - An aware [datetime.datetime] is the number of microseconds since the
      epoch (Python's resolution), a [Z]; a [datetime.timedelta] is the
      normalised triple (days, seconds, microseconds) Python keeps.
    - [datetime.datetime.now(datetime.UTC)] is read at most once on every path
      of a handler; the value read is the handler's argument [now].
    - The tracker's attributes are the record [ChannelManagement]; everything
      outside the process (the channel on the platform, the table
      [ttv_stream_titles], the chat) is the record [World].
    - Every awaited call to a collaborator is entered in [calls] and may
      raise; once it has raised the rest of the handler does not run, and what
      the handler assigned to [self] before stays assigned.
    - [!title history] only reads the table; it is embedded in the last
      part, for any behaviour of its read. Of [!title set], [!title restore]
      and [!title history] the bodies are embedded, the framework's
      [is_moderator] guard in front of them is not. *)

From Stdlib Require Import ZArith Ascii String List.
From stdpp Require Import gmap strings list fin_maps sorting.

Open Scope Z_scope.

(** ** Python's [datetime] *)

Module datetime.

Record timedelta := mk_timedelta {
    days : Z;
    seconds : Z;
    microseconds : Z
  }.

Definition us_per_second : Z := 1000000.
Definition us_per_day : Z := 86400 * us_per_second.

  (** The normal form Python stores: [0 <= seconds < 86400] and
      [0 <= microseconds < 1000000], the sign is carried by [days]. *)
Definition of_microseconds (us : Z) : timedelta :=
    {| days := us / us_per_day;
       seconds := (us mod us_per_day) / us_per_second;
       microseconds := us mod us_per_second |}.

Definition total_microseconds (d : timedelta) : Z :=
    days d * us_per_day + seconds d * us_per_second + microseconds d.

  (** [datetime.timedelta(hours=h)] and [datetime.timedelta(days=d)]. *)
Definition timedelta_hours (h : Z) : timedelta :=
    of_microseconds (h * 3600 * us_per_second).
Definition timedelta_days (d : Z) : timedelta :=
    of_microseconds (d * us_per_day).

  (** [a - b] on two datetimes, and [a - d] on a datetime and a timedelta. *)
Definition sub (a b : Z) : timedelta := of_microseconds (a - b).
Definition sub_timedelta (a : Z) (d : timedelta) : Z :=
    a - total_microseconds d.

End datetime.

Arguments datetime.of_microseconds : simpl never.
Arguments datetime.sub : simpl never.
Arguments datetime.sub_timedelta : simpl never.

(** ** Python's [str] *)

Definition lower_ascii (c : ascii) : ascii :=
  let n := nat_of_ascii c in
  if ((65 <=? n) && (n <=? 90))%nat then ascii_of_nat (n + 32) else c.

(** [str.lower()]. *)
Fixpoint lower (s : string) : string :=
  match s with
  | EmptyString => EmptyString
  | String c s' => String (lower_ascii c) (lower s')
  end.

(** The double quote inside the f-strings. *)
Definition dq : string := String (ascii_of_nat 34) EmptyString.

(** Truth value of a [str | None]: [None] and the empty string are false. *)
Definition truthy (s : option string) : bool :=
  match s with
  | None | Some EmptyString => false
  | Some _ => true
  end.

(** ** The values that cross the framework's interface *)

(** [twitchio.Game], as [fetch_games] returns it. *)
Module Game.
Record t := mk { id : string; name : string }.
End Game.

(** [twitchio.ChannelInfo], as [fetch_channel_info] returns it. *)
Module ChannelInfo.
Record t := mk { game_name : string; title : string }.
End ChannelInfo.

(** [twitchio.ChannelUpdate], the payload of the [channel_update] event. *)
Module ChannelUpdate.
Record t := mk { category_name : string; title : string }.
End ChannelUpdate.

(** [commands.Context]: of the invoker only [ctx.chatter.moderator] is read;
    [ctx.broadcaster] is the one channel of [World]. *)
Module Context.
Record t := mk { chatter_moderator : bool }.
End Context.

(** The awaited calls to the collaborators. *)
Inductive Call :=
| fetch_channel_info
| modify_channel (game_id : option string) (title : option string)
| fetch_games (names : list string)
| send (content : string)
| send_message (sender : string) (message : string)
| pool_fetchval (offset : Z)
| pool_execute_upsert (title : string) (edit_time : Z)
| pool_execute_delete (cutoff_dt : Z).

(** ** State *)

(** The attributes of a [ChannelManagement] instance. *)
Record ChannelManagement := mk_self {
  game_tracked : string;
  title_tracked : string;
  game_updated_dt : Z;
  title_updated_dt : Z
}.

(** What lives outside the process. [ttv_stream_titles] is the table of the
    same name: [title] is its conflict target, so it is a finite map from
    title to [edit_time]. [chat] holds the lines posted, oldest first, and
    [calls] every call issued, oldest first, whether it went through or
    raised. *)
Record World := mk_world {
  channel_game_id : string;
  channel_title : string;
  ttv_stream_titles : gmap string Z;
  chat : list string;
  calls : list Call
}.

Definition log (c : Call) (w : World) : World :=
  mk_world (channel_game_id w) (channel_title w) (ttv_stream_titles w)
           (chat w) (calls w ++ [c]).

Definition post (line : string) (w : World) : World :=
  mk_world (channel_game_id w) (channel_title w) (ttv_stream_titles w)
           (chat w ++ [line]) (calls w).

Definition with_table (tbl : gmap string Z) (w : World) : World :=
  mk_world (channel_game_id w) (channel_title w) tbl (chat w) (calls w).

(** [modify_channel] changes the fields it is given. *)
Definition patch_channel (game_id title : option string) (w : World) : World :=
  mk_world (default (channel_game_id w) game_id)
           (default (channel_title w) title)
           (ttv_stream_titles w) (chat w) (calls w).

(** ** The table [ttv_stream_titles] *)

Module Sql.

  (** [ORDER BY edit_time DESC]. Rows of equal [edit_time] come in the order
      the sort leaves them in; SQL fixes none. *)
Definition newer_first (r1 r2 : string * Z) : Prop := r2.2 ≤ r1.2.

#[global] Instance newer_first_dec r1 r2 : Decision (newer_first r1 r2) :=
    Z_le_dec (r2.2) (r1.2).

Definition order_by_edit_time_desc (tbl : gmap string Z) : list (string * Z) :=
    merge_sort newer_first (map_to_list tbl).

  (** [SELECT title ... ORDER BY edit_time DESC LIMIT 1 OFFSET $1], read with
      [fetchval]: the title of the row after the first [offset] ones, [None]
      when there is none. *)
Definition select_title (offset : Z) (tbl : gmap string Z) : option string :=
    fst <$> (order_by_edit_time_desc tbl !! Z.to_nat offset).

  (** [INSERT ... VALUES ($1, $2) ON CONFLICT (title) DO UPDATE SET edit_time = $2]. *)
Definition upsert (title : string) (edit_time : Z) (tbl : gmap string Z)
    : gmap string Z :=
    <[title := edit_time]> tbl.

  (** [DELETE FROM ttv_stream_titles WHERE edit_time < $1]. *)
Definition delete_older (cutoff_dt : Z) (tbl : gmap string Z) : gmap string Z :=
    filter (λ r : string * Z, ¬ (r.2 < cutoff_dt)) tbl.

End Sql.

(** ** The handler monad: state, and exceptions that keep the state *)

Inductive outcome (A : Type) :=
| Returned (a : A)
| Raised (c : Call).
Arguments Returned {A} a.
Arguments Raised {A} c.

Record Run (A : Type) := mk_run {
  result : outcome A;
  self : ChannelManagement;
  world : World
}.
Arguments mk_run {A} _ _ _.
Arguments result {A} _.
Arguments self {A} _.
Arguments world {A} _.

Definition M (A : Type) : Type := ChannelManagement → World → Run A.

Definition ret {A} (a : A) : M A := λ s w, mk_run (Returned a) s w.

Definition bind {A B} (m : M A) (k : A → M B) : M B :=
  λ s w,
    match m s w with
    | mk_run (Returned a) s' w' => k a s' w'
    | mk_run (Raised c) s' w' => mk_run (Raised c) s' w'
    end.

Declare Scope handler_scope.
Delimit Scope handler_scope with handler.
Notation "x <- m ;; k" := (bind m (λ x, k))
  (at level 100, m at next level, right associativity) : handler_scope.
Notation "m ;; k" := (bind m (λ _, k))
  (at level 100, right associativity) : handler_scope.
Open Scope handler_scope.

(** Assignments to the attributes of [self]. *)
Definition set_game_updated_dt (now : Z) : M unit :=
  λ s w, mk_run (Returned tt)
    (mk_self (game_tracked s) (title_tracked s) now (title_updated_dt s)) w.

Definition set_title_updated_dt (now : Z) : M unit :=
  λ s w, mk_run (Returned tt)
    (mk_self (game_tracked s) (title_tracked s) (game_updated_dt s) now) w.

Definition set_game_tracked (g : string) : M unit :=
  λ s w, mk_run (Returned tt)
    (mk_self g (title_tracked s) (game_updated_dt s) (title_updated_dt s)) w.

Definition set_title_tracked (t : string) : M unit :=
  λ s w, mk_run (Returned tt)
    (mk_self (game_tracked s) t (game_updated_dt s) (title_updated_dt s)) w.

Definition get_self : M ChannelManagement := λ s w, mk_run (Returned s) s w.

(** ** What the module imports from outside [ext/] *)

(** [utils.const] and [utils.formats]: the emote names [const.STV.*] and
    [const.FFZ.*], the bot's user id [const.UserID.Bot] and
    [formats.ordinal]. Their values are not fixed here: every handler is
    stated for all of them. *)
Record Utils := mk_utils {
  STV_DankDolmes : string;
  FFZ_peepoPolice : string;
  STV_uuh : string;
  STV_How2Read : string;
  STV_DankMods : string;
  STV_donkHappy : string;
  STV_donkDetective : string;
  STV_DankThink : string;
  UserID_Bot : string;
  ordinal : Z → string
}.

(** The collaborators as one handler meets them: [raises w c] tells whether
    the call [c], issued in the world [w], raises instead of going through;
    [games_named] is what the game search answers; [category_name_of] is the
    platform's name of a category id. *)
Record Platform := mk_platform {
  raises : World → Call → bool;
  games_named : list string → list Game.t;
  category_name_of : string → string
}.

(** No call raises. *)
Definition reliable (P : Platform) : Prop := ∀ w c, raises P w c = false.

Section Handlers.

Context (U : Utils) (P : Platform).

(** An awaited call: it is entered in [calls]; it then either raises or has
    its effect on the world and returns its answer. *)
Definition await {A} (c : Call) (effect : World → A * World) : M A :=
  λ s w,
    if raises P w c then mk_run (Raised c) s (log c w)
    else let (a, w') := effect (log c w) in mk_run (Returned a) s w'.

Definition raise {A} (c : Call) : M A :=
  λ s w, mk_run (Raised c) s (log c w).

(** [ctx.broadcaster.fetch_channel_info()], [self.aluerie.fetch_channel_info()]. *)
Definition broadcaster_fetch_channel_info : M ChannelInfo.t :=
  await fetch_channel_info
    (λ w, (ChannelInfo.mk (category_name_of P (channel_game_id w)) (channel_title w), w)).

(** [ctx.broadcaster.modify_channel(game_id=..)], [streamer.modify_channel(title=..)]. *)
Definition broadcaster_modify_channel (game_id title : option string) : M unit :=
  await (modify_channel game_id title) (λ w, (tt, patch_channel game_id title w)).

(** [self.bot.fetch_games(names=..)]. *)
Definition bot_fetch_games (names : list string) : M (list Game.t) :=
  await (fetch_games names) (λ w, (games_named P names, w)).

(** [ctx.send(..)]. *)
Definition ctx_send (content : string) : M unit :=
  await (send content) (λ w, (tt, post content w)).

(** [update.broadcaster.send_message(sender=.., message=..)]. *)
Definition broadcaster_send_message (sender message : string) : M unit :=
  await (send_message sender message) (λ w, (tt, post message w)).

(** The largest [bigint], the type of the parameter of [OFFSET $1]. *)
Definition int64_max : Z := 2 ^ 63 - 1.

(** [self.bot.pool.fetchval(query, offset)] with the query of [title_restore].
    The driver refuses an offset outside the range of [bigint] before it
    sends the query, and the server refuses a negative [OFFSET]: in both
    cases the call raises, whatever the state of the database. *)
Definition bot_pool_fetchval (offset : Z) : M (option string) :=
  if (offset <? 0) || (int64_max <? offset) then raise (pool_fetchval offset)
  else await (pool_fetchval offset)
         (λ w, (Sql.select_title offset (ttv_stream_titles w), w)).

(** [self.bot.pool.execute(query, title, now)] with the query of [channel_update]. *)
Definition bot_pool_execute_upsert (title : string) (edit_time : Z) : M unit :=
  await (pool_execute_upsert title edit_time)
    (λ w, (tt, with_table (Sql.upsert title edit_time (ttv_stream_titles w)) w)).

(** [self.bot.pool.execute(query, cutoff_dt)] with the query of [clear_the_database]. *)
Definition bot_pool_execute_delete (cutoff_dt : Z) : M unit :=
  await (pool_execute_delete cutoff_dt)
    (λ w, (tt, with_table (Sql.delete_older cutoff_dt (ttv_stream_titles w)) w)).

(** An [if] with no [else]. *)
Definition when (b : bool) (m : M unit) : M unit := if b then m else ret tt.

(** *** [ChannelManagement.__init__] and [start_tracking] *)

(** [now_game] and [now_title] are the two clock readings of [__init__]. *)
Definition init (now_game now_title : Z) : ChannelManagement :=
  {| game_tracked := "idk";
     title_tracked := "idk";
     game_updated_dt := datetime.sub_timedelta now_game (datetime.timedelta_hours 1);
     title_updated_dt := datetime.sub_timedelta now_title (datetime.timedelta_hours 1) |}.

Definition start_tracking : M unit :=
  channel_info <- broadcaster_fetch_channel_info ;;
  set_game_tracked (ChannelInfo.game_name channel_info) ;;
  set_title_tracked (ChannelInfo.title channel_info).

(** *** [!game] *)

Definition game_keywords : gmap string string :=
  {[ "dota" := "Dota 2"; "er" := "Elden Ring" ]}.

Definition game (ctx : Context.t) (game_name : option string) (now : Z) : M unit :=
  if negb (truthy game_name) then
    (* 1. No argument *)
    (channel_info <- broadcaster_fetch_channel_info ;;
     let game_name :=
       if truthy (Some (ChannelInfo.game_name channel_info))
       then ChannelInfo.game_name channel_info else "No game category" in
     ctx_send (game_name +:+ " " +:+ STV_DankDolmes U))
  else
    (* 2. Argument "game_name" is provided *)
    let game_name := default EmptyString game_name in
    if negb (Context.chatter_moderator ctx) then
      (* a. non-mod case *)
      ctx_send ("Only moderators are allowed to change game name " +:+ FFZ_peepoPolice U)
    else if decide (lower game_name = "clear") then
      (* b. the keyword that clears the game category *)
      (set_game_updated_dt now ;;
       broadcaster_modify_channel (Some "0") None ;;
       ctx_send ("Set game to " +:+ dq +:+ "No game category" +:+ dq +:+ " " +:+ STV_uuh U))
    else
      (* c. specified game *)
      let game_name := default game_name (game_keywords !! game_name) in
      (games <- bot_fetch_games [game_name] ;;
       match head games with
       | None =>
           ctx_send ("Couldn't find any games with such a name " +:+ STV_How2Read U)
       | Some game =>
           set_game_updated_dt now ;;
           broadcaster_modify_channel (Some (Game.id game)) None ;;
           ctx_send ("Changed game to " +:+ dq +:+ Game.name game +:+ dq +:+ " "
                     +:+ STV_DankMods U)
       end).

(** *** [!title] *)

Definition update_title (title : string) (now : Z) : M unit :=
  set_title_updated_dt now ;;
  broadcaster_modify_channel None (Some title).

Definition title_group (ctx : Context.t) (title : string) (now : Z) : M unit :=
  if negb (truthy (Some title)) then
    (* 1. No argument *)
    (channel_info <- broadcaster_fetch_channel_info ;;
     ctx_send (ChannelInfo.title channel_info))
  else if negb (Context.chatter_moderator ctx) then
    (* 2a. non-mod case *)
    ctx_send ("Only moderators are allowed to change title " +:+ FFZ_peepoPolice U)
  else
    (* 2b. mod case *)
    (update_title title now ;;
     ctx_send (STV_donkHappy U +:+ " Changed title to " +:+ dq +:+ title +:+ dq)).

(** The body of [!title set]; the framework runs it once its
    [is_moderator] guard has let the invocation through. *)
Definition title_set (ctx : Context.t) (title : string) (now : Z) : M unit :=
  update_title title now ;;
  ctx_send (STV_donkHappy U +:+ " Set title to " +:+ dq +:+ title +:+ dq).

(** The body of [!title restore], behind the same guard. *)
Definition title_restore (ctx : Context.t) (offset : Z) (now : Z) : M unit :=
  title <- bot_pool_fetchval offset ;;
  match title with
  | None => ctx_send "No change: the database doesn't keep such title."
  | Some title =>
      update_title title now ;;
      ctx_send ("Set the title to " +:+ ordinal U offset +:+ " in history: " +:+ title)
  end.

(** *** The listeners *)

Definition channel_update (update : ChannelUpdate.t) (now : Z) : M unit :=
  s <- get_self ;;
  when (bool_decide (game_tracked s ≠ ChannelUpdate.category_name update)
        && bool_decide (datetime.seconds (datetime.sub now (game_updated_dt s)) > 15))
    (broadcaster_send_message (UserID_Bot U)
       (STV_donkDetective U +:+ " Game was changed to " +:+ dq
        +:+ ChannelUpdate.category_name update +:+ dq)) ;;
  s <- get_self ;;
  when (bool_decide (title_tracked s ≠ ChannelUpdate.title update)
        && bool_decide (datetime.seconds (datetime.sub now (title_updated_dt s)) > 15))
    (broadcaster_send_message (UserID_Bot U)
       (STV_DankThink U +:+ " Title was changed to " +:+ dq
        +:+ ChannelUpdate.title update +:+ dq)) ;;
  s <- get_self ;;
  when (bool_decide (title_tracked s ≠ ChannelUpdate.title update))
    (bot_pool_execute_upsert (ChannelUpdate.title update) now) ;;
  set_game_tracked (ChannelUpdate.category_name update) ;;
  set_title_tracked (ChannelUpdate.title update).

Definition clear_the_database (now : Z) : M unit :=
  let cutoff_dt := datetime.sub_timedelta now (datetime.timedelta_days 30) in
  bot_pool_execute_delete cutoff_dt.

End Handlers.

(** ** Vocabulary of the statements *)

(** The calls a handler issued, given the worlds before and after it. *)
Definition issued (w w' : World) : list Call :=
  drop (length (calls w)) (calls w').

(** The lines a handler posted to the chat. *)
Definition posted (w w' : World) : list string :=
  drop (length (chat w)) (chat w').

(** The announcement of an externally made game change, and of a title change. *)
Definition game_announcement (U : Utils) (b : string) : string :=
  STV_donkDetective U +:+ " Game was changed to " +:+ dq +:+ b +:+ dq.

Definition title_announcement (U : Utils) (t : string) : string :=
  STV_DankThink U +:+ " Title was changed to " +:+ dq +:+ t +:+ dq.

(** The channel as the platform holds it. *)
Definition same_channel (w w' : World) : Prop :=
  channel_game_id w' = channel_game_id w ∧ channel_title w' = channel_title w.

(** ** A sample instantiation, for the concrete runs *)

Definition demo_utils : Utils :=
  {| STV_DankDolmes := "DankDolmes";
     FFZ_peepoPolice := "peepoPolice";
     STV_uuh := "uuh";
     STV_How2Read := "How2Read";
     STV_DankMods := "DankMods";
     STV_donkHappy := "donkHappy";
     STV_donkDetective := "donkDetective";
     STV_DankThink := "DankThink";
     UserID_Bot := "1158666176";
     ordinal := λ n,
       if decide (n = 1) then "1st" else if decide (n = 2) then "2nd"
       else if decide (n = 3) then "3rd" else "10th" |}.

Definition demo_games_named (names : list string) : list Game.t :=
  if decide (names = ["Dota 2"]) then [Game.mk "29595" "Dota 2"]
  else if decide (names = ["Elden Ring"]) then [Game.mk "512953" "Elden Ring"]
  else [].

Definition demo_category_name_of (game_id : string) : string :=
  if decide (game_id = "29595") then "Dota 2"
  else if decide (game_id = "512953") then "Elden Ring"
  else EmptyString.

(** Every collaborator answers. *)
Definition demo_platform : Platform :=
  {| raises := λ _ _, false;
     games_named := demo_games_named;
     category_name_of := demo_category_name_of |}.

(** The platform refuses every [modify_channel]. *)
Definition demo_platform_modify_fails : Platform :=
  {| raises := λ _ c, match c with modify_channel _ _ => true | _ => false end;
     games_named := demo_games_named;
     category_name_of := demo_category_name_of |}.

(** Only the game search is down. *)
Definition demo_platform_no_search : Platform :=
  {| raises := λ _ c, match c with fetch_games _ => true | _ => false end;
     games_named := λ _, [];
     category_name_of := demo_category_name_of |}.

Definition demo_seconds (n : Z) : Z := n * datetime.us_per_second.

(** The history of the examples: the current title and three older ones. *)
Definition demo_table : gmap string Z :=
  {[ "Dota 2 grind" := demo_seconds 100;
     "Chatting" := demo_seconds 200;
     "Elden Ring Hype" := demo_seconds 300;
     "Watching animes" := demo_seconds 400 ]}.

Definition demo_world : World :=
  {| channel_game_id := "29595";
     channel_title := "Watching animes";
     ttv_stream_titles := demo_table;
     chat := [];
     calls := [] |}.

Definition demo_self : ChannelManagement :=
  {| game_tracked := "Dota 2";
     title_tracked := "Watching animes";
     game_updated_dt := demo_seconds 1000;
     title_updated_dt := demo_seconds 1000 |}.

Definition demo_mod : Context.t := Context.mk true.
Definition demo_viewer : Context.t := Context.mk false.

(** * Properties *)

Ltac run :=
  cbv beta delta [channel_update game title_group title_set title_restore update_title
    clear_the_database start_tracking bind ret when get_self await raise
    set_game_updated_dt set_title_updated_dt set_game_tracked set_title_tracked
    broadcaster_fetch_channel_info broadcaster_modify_channel bot_fetch_games
    ctx_send broadcaster_send_message bot_pool_fetchval bot_pool_execute_upsert
    bot_pool_execute_delete]; simpl.

Ltac case_raises :=
  repeat match goal with
    | |- context [raises ?P ?w ?c] => destruct (raises P w c) eqn:?; cbn
    end.

Lemma demo_platform_reliable : reliable demo_platform.
Proof. intros w c. reflexivity. Qed.

(** ** [datetime] *)

Lemma seconds_same_day (us : Z) :
  0 ≤ us < datetime.us_per_day →
  datetime.seconds (datetime.of_microseconds us) = us / datetime.us_per_second.
Proof.
  intros Hus. unfold datetime.of_microseconds. simpl.
  by rewrite Z.mod_small.
Qed.

(** Within a day of the stamp the test [.seconds > 15] holds from the 16th
    full second on. *)
Lemma seconds_gt_15_same_day (now dt : Z) :
  0 ≤ now - dt < datetime.us_per_day →
  datetime.seconds (datetime.sub now dt) > 15 ↔ 16 * datetime.us_per_second ≤ now - dt.
Proof.
  intros Hus. unfold datetime.sub. rewrite seconds_same_day by done.
  unfold datetime.us_per_day, datetime.us_per_second in *.
  pose proof (Z.div_mod (now - dt) 1000000 ltac:(lia)) as Hdm.
  pose proof (Z.mod_pos_bound (now - dt) 1000000 ltac:(lia)) as Hmod.
  lia.
Qed.

(** [.seconds] forgets the whole days that have passed. *)
Lemma seconds_forgets_days (now dt k : Z) :
  datetime.seconds (datetime.sub (now + k * datetime.us_per_day) dt)
  = datetime.seconds (datetime.sub now dt).
Proof.
  unfold datetime.sub, datetime.of_microseconds. simpl.
  replace (now + k * datetime.us_per_day - dt)
    with (now - dt + k * datetime.us_per_day) by lia.
  by rewrite Z.mod_add by (unfold datetime.us_per_day, datetime.us_per_second; lia).
Qed.

Lemma sub_timedelta_days_30 (now : Z) :
  datetime.sub_timedelta now (datetime.timedelta_days 30)
  = now - 30 * datetime.us_per_day.
Proof. reflexivity. Qed.

Lemma sub_timedelta_hours_1 (now : Z) :
  datetime.sub_timedelta now (datetime.timedelta_hours 1)
  = now - 3600 * datetime.us_per_second.
Proof. reflexivity. Qed.

(** ** Bookkeeping on worlds *)

Lemma issued_app (w w' : World) (new : list Call) :
  calls w' = calls w ++ new → issued w w' = new.
Proof. unfold issued. intros ->. by rewrite drop_app_length. Qed.

Lemma posted_app (w w' : World) (new : list string) :
  chat w' = chat w ++ new → posted w w' = new.
Proof. unfold posted. intros ->. by rewrite drop_app_length. Qed.

(** ** [channel_update] when every call goes through *)

Section ChannelUpdateRuns.

Context (U : Utils) (P : Platform) (HP : reliable P).
Context (update : ChannelUpdate.t) (now : Z) (s : ChannelManagement) (w : World).

Let r := channel_update U P update now s w.

(** The three tests of the handler. *)
Let game_test : bool :=
  bool_decide (game_tracked s ≠ ChannelUpdate.category_name update)
  && bool_decide (datetime.seconds (datetime.sub now (game_updated_dt s)) > 15).
Let title_test : bool :=
  bool_decide (title_tracked s ≠ ChannelUpdate.title update)
  && bool_decide (datetime.seconds (datetime.sub now (title_updated_dt s)) > 15).
Let history_test : bool :=
  bool_decide (title_tracked s ≠ ChannelUpdate.title update).

Lemma channel_update_run :
  r = {| result := Returned tt;
         self := {| game_tracked := ChannelUpdate.category_name update;
                    title_tracked := ChannelUpdate.title update;
                    game_updated_dt := game_updated_dt s;
                    title_updated_dt := title_updated_dt s |};
         world :=
           {| channel_game_id := channel_game_id w;
              channel_title := channel_title w;
              ttv_stream_titles :=
                if history_test
                then Sql.upsert (ChannelUpdate.title update) now (ttv_stream_titles w)
                else ttv_stream_titles w;
              chat :=
                chat w
                ++ (if game_test
                    then [game_announcement U (ChannelUpdate.category_name update)]
                    else [])
                ++ (if title_test
                    then [title_announcement U (ChannelUpdate.title update)]
                    else []);
              calls :=
                calls w
                ++ (if game_test
                    then [send_message (UserID_Bot U)
                            (game_announcement U (ChannelUpdate.category_name update))]
                    else [])
                ++ (if title_test
                    then [send_message (UserID_Bot U)
                            (title_announcement U (ChannelUpdate.title update))]
                    else [])
                ++ (if history_test
                    then [pool_execute_upsert (ChannelUpdate.title update) now]
                    else []) |} |}.
Proof.
  subst r game_test title_test history_test.
  unfold game_announcement, title_announcement. destruct w as [gid ttl tbl lines cs].
  run.
  destruct (bool_decide (game_tracked s ≠ _) && bool_decide (_ > 15)); simpl;
    rewrite ?HP; simpl;
    destruct (bool_decide (title_tracked s ≠ _) && bool_decide (_ > 15)); simpl;
    rewrite ?HP; simpl;
    destruct (bool_decide (title_tracked s ≠ _)); simpl;
    rewrite ?HP; simpl;
    unfold with_table, log, post; simpl;
    rewrite ?app_nil_r, <- ?app_assoc; reflexivity.
Qed.

Lemma channel_update_returns : result r = Returned tt.
Proof. by rewrite channel_update_run. Qed.

Lemma channel_update_self :
  self r = {| game_tracked := ChannelUpdate.category_name update;
              title_tracked := ChannelUpdate.title update;
              game_updated_dt := game_updated_dt s;
              title_updated_dt := title_updated_dt s |}.
Proof. by rewrite channel_update_run. Qed.

Lemma channel_update_posted :
  posted w (world r) =
    (if game_test
     then [game_announcement U (ChannelUpdate.category_name update)] else [])
    ++ (if title_test
        then [title_announcement U (ChannelUpdate.title update)] else []).
Proof. apply posted_app. by rewrite channel_update_run. Qed.

Lemma channel_update_table :
  ttv_stream_titles (world r) =
    if history_test
    then Sql.upsert (ChannelUpdate.title update) now (ttv_stream_titles w)
    else ttv_stream_titles w.
Proof. by rewrite channel_update_run. Qed.

Lemma channel_update_channel : same_channel w (world r).
Proof. by rewrite channel_update_run. Qed.

(** From the 16th second after the stamp and within a day of it, a change of
    game alone is announced, once. *)
Lemma channel_update_announces_once :
  game_tracked s ≠ ChannelUpdate.category_name update →
  title_tracked s = ChannelUpdate.title update →
  16 * datetime.us_per_second ≤ now - game_updated_dt s < datetime.us_per_day →
  posted w (world r) = [game_announcement U (ChannelUpdate.category_name update)].
Proof.
  intros Hg Ht Hnow. rewrite channel_update_posted.
  subst game_test title_test.
  rewrite (bool_decide_eq_true_2 _ Hg).
  rewrite (bool_decide_eq_false_2 (title_tracked s ≠ _)) by (intros H; by apply H).
  rewrite bool_decide_eq_true_2; [done|].
  apply seconds_gt_15_same_day;
    unfold datetime.us_per_day, datetime.us_per_second in *; lia.
Qed.

(** Less than 16 seconds after the stamp, nothing is said about the game. *)
Lemma channel_update_within_window :
  0 ≤ now - game_updated_dt s < 16 * datetime.us_per_second →
  posted w (world r) =
    if title_test then [title_announcement U (ChannelUpdate.title update)] else [].
Proof.
  intros Hnow. rewrite channel_update_posted. subst game_test.
  rewrite (bool_decide_eq_false_2 (datetime.seconds _ > 15)).
  - by rewrite andb_false_r.
  - rewrite seconds_gt_15_same_day;
      unfold datetime.us_per_day, datetime.us_per_second in *; lia.
Qed.

End ChannelUpdateRuns.

(** Whole days later the handler is as silent as inside the window: [k]
    days and less than 16 seconds after the stamp, a change of game that
    leaves the title alone is not announced. *)
Lemma channel_update_silent_days_later U P update now s w (k : Z) :
  reliable P →
  title_tracked s = ChannelUpdate.title update →
  0 ≤ now - game_updated_dt s < 16 * datetime.us_per_second →
  posted w (world (channel_update U P update (now + k * datetime.us_per_day) s w)) = [].
Proof.
  intros HP Ht Hnow. rewrite channel_update_posted by done.
  rewrite seconds_forgets_days.
  rewrite (bool_decide_eq_false_2 (datetime.seconds _ > 15)).
  - rewrite andb_false_r.
    rewrite (bool_decide_eq_false_2 (title_tracked s ≠ _)); [done|].
    intros H. by apply H.
  - rewrite seconds_gt_15_same_day;
      unfold datetime.us_per_day, datetime.us_per_second in *; lia.
Qed.

(** ** The branches of [!game] and [!title] *)

Section Branches.

Context (U : Utils) (P : Platform).
Context (ctx : Context.t) (now : Z) (s : ChannelManagement) (w : World).

Lemma lower_clear_nonempty (arg : string) : lower arg = "clear" → arg ≠ EmptyString.
Proof. by intros H ->. Qed.

Lemma game_non_mod (arg : string) :
  Context.chatter_moderator ctx = false → arg ≠ EmptyString →
  game U P ctx (Some arg) now s w =
    ctx_send P ("Only moderators are allowed to change game name " +:+ FFZ_peepoPolice U) s w.
Proof.
  intros Hmod Harg. unfold game. destruct arg; [done|]. simpl. by rewrite Hmod.
Qed.

Lemma game_clear (arg : string) :
  Context.chatter_moderator ctx = true → lower arg = "clear" →
  game U P ctx (Some arg) now s w =
    (set_game_updated_dt now ;;
     broadcaster_modify_channel P (Some "0") None ;;
     ctx_send P ("Set game to " +:+ dq +:+ "No game category" +:+ dq +:+ " " +:+ STV_uuh U))
      s w.
Proof.
  intros Hmod Harg. unfold game.
  destruct arg; [done|]. cbn [truthy negb default]. rewrite Hmod. cbn [negb].
  by rewrite decide_True.
Qed.

Lemma game_lookup (arg : string) :
  Context.chatter_moderator ctx = true → arg ≠ EmptyString → lower arg ≠ "clear" →
  game U P ctx (Some arg) now s w =
    (games <- bot_fetch_games P [default arg (game_keywords !! arg)] ;;
     match head games with
     | None => ctx_send P ("Couldn't find any games with such a name " +:+ STV_How2Read U)
     | Some game =>
         set_game_updated_dt now ;;
         broadcaster_modify_channel P (Some (Game.id game)) None ;;
         ctx_send P ("Changed game to " +:+ dq +:+ Game.name game +:+ dq +:+ " "
                     +:+ STV_DankMods U)
     end) s w.
Proof.
  intros Hmod Harg Hclear. unfold game.
  destruct arg; [done|]. cbn [truthy negb default]. rewrite Hmod. cbn [negb].
  by rewrite decide_False.
Qed.

(** The synonym table is a dictionary lookup on the argument as typed. *)
Lemma game_keywords_get (arg : string) :
  default arg (game_keywords !! arg) =
    if decide (arg = "dota") then "Dota 2"
    else if decide (arg = "er") then "Elden Ring" else arg.
Proof.
  unfold game_keywords.
  destruct (decide (arg = "dota")) as [->|Hd]; [done|].
  rewrite lookup_insert_ne by done.
  destruct (decide (arg = "er")) as [->|He]; [done|].
  by rewrite lookup_singleton_ne by done.
Qed.

Lemma title_group_non_mod (title : string) :
  Context.chatter_moderator ctx = false → title ≠ EmptyString →
  title_group U P ctx title now s w =
    ctx_send P ("Only moderators are allowed to change title " +:+ FFZ_peepoPolice U) s w.
Proof.
  intros Hmod Harg. unfold title_group. destruct title; [done|]. simpl. by rewrite Hmod.
Qed.

Lemma title_group_mod (title : string) :
  Context.chatter_moderator ctx = true → title ≠ EmptyString →
  title_group U P ctx title now s w =
    (update_title P title now ;;
     ctx_send P (STV_donkHappy U +:+ " Changed title to " +:+ dq +:+ title +:+ dq)) s w.
Proof.
  intros Hmod Harg. unfold title_group. destruct title; [done|]. simpl. by rewrite Hmod.
Qed.

(** A sent line is one call; it changes the chat only, and only if it goes
    through. *)
Lemma ctx_send_run (line : string) :
  ctx_send P line s w =
    {| result := if raises P w (send line) then Raised (send line) else Returned tt;
       self := s;
       world := {| channel_game_id := channel_game_id w;
                   channel_title := channel_title w;
                   ttv_stream_titles := ttv_stream_titles w;
                   chat := chat w ++ (if raises P w (send line) then [] else [line]);
                   calls := calls w ++ [send line] |} |}.
Proof.
  unfold ctx_send, await. destruct (raises P w (send line)); simpl;
    unfold log, post; simpl; by rewrite ?app_nil_r.
Qed.

End Branches.

(** ** A bot-initiated game change *)

Lemma game_found_run U P ctx arg g now s w :
  reliable P →
  Context.chatter_moderator ctx = true → arg ≠ EmptyString → lower arg ≠ "clear" →
  head (games_named P [default arg (game_keywords !! arg)]) = Some g →
  game U P ctx (Some arg) now s w =
    {| result := Returned tt;
       self := {| game_tracked := game_tracked s;
                  title_tracked := title_tracked s;
                  game_updated_dt := now;
                  title_updated_dt := title_updated_dt s |};
       world :=
         {| channel_game_id := Game.id g;
            channel_title := channel_title w;
            ttv_stream_titles := ttv_stream_titles w;
            chat := chat w ++ ["Changed game to " +:+ dq +:+ Game.name g +:+ dq +:+ " "
                               +:+ STV_DankMods U];
            calls := calls w
                     ++ [fetch_games [default arg (game_keywords !! arg)];
                         modify_channel (Some (Game.id g)) None;
                         send ("Changed game to " +:+ dq +:+ Game.name g +:+ dq +:+ " "
                               +:+ STV_DankMods U)] |} |}.
Proof.
  intros HP Hmod Harg Hclear Hg. rewrite game_lookup by done.
  destruct w as [gid ttl tbl lines cs]. run. rewrite HP. simpl. rewrite Hg. simpl.
  rewrite !HP. unfold post, log, patch_channel. simpl.
  by rewrite <- !app_assoc.
Qed.

(** ** What [channel_update] announces and records *)

(** C1 (the code departs from it). A changed game is to be announced once
    when the bot made no change before, or made one more than 15 seconds
    ago. The handler tests [(now - game_updated_dt).seconds], the seconds
    field of the difference, which leaves out the whole days and the
    fraction of a second. Three runs in which the tracker records "Dota 2",
    the event reports "Elden Ring" and nothing is posted: the tracker was
    started at 0, the bot never changed the game, and the event comes 23 h
    and 5 s later; the bot changed the game at 1000 s and the event comes
    one day and 5 s after that; the same, 15.5 s after that. The tracked
    game is overwritten all the same, so the change is never announced. *)
Theorem channel_update_silent_on_late_change :
  game_tracked (self (start_tracking demo_platform (init 0 0) demo_world)) = "Dota 2"
  ∧ game_tracked
      (self (channel_update demo_utils demo_platform
               (ChannelUpdate.mk "Elden Ring" "Watching animes") (demo_seconds 82805)
               (self (start_tracking demo_platform (init 0 0) demo_world))
               demo_world)) = "Elden Ring"
  ∧ posted demo_world
      (world (channel_update demo_utils demo_platform
                (ChannelUpdate.mk "Elden Ring" "Watching animes") (demo_seconds 82805)
                (self (start_tracking demo_platform (init 0 0) demo_world))
                demo_world)) = []
  ∧ posted demo_world
      (world (channel_update demo_utils demo_platform
                (ChannelUpdate.mk "Elden Ring" "Watching animes")
                (demo_seconds (1000 + 86400 + 5)) demo_self demo_world)) = []
  ∧ posted demo_world
      (world (channel_update demo_utils demo_platform
                (ChannelUpdate.mk "Elden Ring" "Watching animes")
                (demo_seconds 1015 + 500000) demo_self demo_world)) = [].
Proof. repeat split; vm_compute; reflexivity. Qed.

(** C2. The tracker records game [a]; a moderator's [!game] resolves to the
    game [g], named [b], and is stamped at [t0]; the update event that
    reports [b] arrives at most 15 seconds later. Then the handler posts no
    announcement of the game: whatever it posts is the announcement of a
    title change, and it posts nothing when the title has not changed. The
    tracked game name becomes [b]. *)
Theorem bot_game_change_echo_not_announced U P ctx arg g update t0 now s w :
  reliable P →
  Context.chatter_moderator ctx = true → arg ≠ EmptyString → lower arg ≠ "clear" →
  head (games_named P [default arg (game_keywords !! arg)]) = Some g →
  game_tracked s ≠ Game.name g →
  ChannelUpdate.category_name update = Game.name g →
  t0 ≤ now ≤ t0 + 15 * datetime.us_per_second →
  let r0 := game U P ctx (Some arg) t0 s w in
  let r := channel_update U P update now (self r0) (world r0) in
  game_tracked (self r0) = game_tracked s
  ∧ result r = Returned tt
  ∧ game_tracked (self r) = Game.name g
  ∧ (∀ line, line ∈ posted (world r0) (world r) →
             line = title_announcement U (ChannelUpdate.title update))
  ∧ (ChannelUpdate.title update = title_tracked s → posted (world r0) (world r) = []).
Proof.
  intros HP Hmod Harg Hclear Hg Hab Hb Hnow r0 r. subst r r0.
  rewrite (game_found_run U P ctx arg g) by done. cbn [self world].
  rewrite channel_update_returns, channel_update_self by done.
  rewrite channel_update_within_window
    by (try done; cbn [game_updated_dt]; unfold datetime.us_per_second in *; lia).
  cbn [game_tracked title_tracked title_updated_dt].
  repeat split; [done|..].
  - intros line. destruct (_ && _); [|by intros ?%elem_of_nil].
    by intros ->%list_elem_of_singleton.
  - intros Ht. rewrite bool_decide_eq_false_2; [done|]. intros H. by apply H.
Qed.

Lemma bot_game_change_echo_not_announced_witness :
  let r0 := game demo_utils demo_platform demo_mod (Some "er") (demo_seconds 2000)
              demo_self demo_world in
  let update := ChannelUpdate.mk "Elden Ring" "Watching animes" in
  let r := channel_update demo_utils demo_platform update (demo_seconds 2015)
             (self r0) (world r0) in
  game_tracked (self r0) = game_tracked demo_self
  ∧ result r = Returned tt
  ∧ game_tracked (self r) = "Elden Ring"
  ∧ (∀ line, line ∈ posted (world r0) (world r) →
             line = title_announcement demo_utils (ChannelUpdate.title update))
  ∧ (ChannelUpdate.title update = title_tracked demo_self →
     posted (world r0) (world r) = []).
Proof.
  apply (bot_game_change_echo_not_announced demo_utils demo_platform demo_mod "er"
           (Game.mk "512953" "Elden Ring")
           (ChannelUpdate.mk "Elden Ring" "Watching animes")
           (demo_seconds 2000) (demo_seconds 2015) demo_self demo_world).
  - exact demo_platform_reliable.
  - reflexivity.
  - discriminate.
  - discriminate.
  - reflexivity.
  - discriminate.
  - reflexivity.
  - vm_compute. split; discriminate.
Defined.

(** C3. When a channel-update event has been handled, the tracked game name
    and title are the ones the event carries: the two assignments are on
    every path, also the paths that post nothing and write no history. *)
Theorem channel_update_tracks_event U P update now s w :
  reliable P →
  let r := channel_update U P update now s w in
  result r = Returned tt
  ∧ game_tracked (self r) = ChannelUpdate.category_name update
  ∧ title_tracked (self r) = ChannelUpdate.title update.
Proof.
  intros HP r. subst r.
  by rewrite channel_update_returns, channel_update_self.
Qed.

(** An event that repeats what is tracked: nothing is posted or written, and
    the assignments are made all the same. *)
Lemma channel_update_tracks_event_witness :
  let update := ChannelUpdate.mk "Dota 2" "Watching animes" in
  let r := channel_update demo_utils demo_platform update (demo_seconds 5000)
             demo_self demo_world in
  reliable demo_platform
  ∧ (result r = Returned tt
     ∧ game_tracked (self r) = ChannelUpdate.category_name update
     ∧ title_tracked (self r) = ChannelUpdate.title update).
Proof.
  split.
  - exact demo_platform_reliable.
  - apply (channel_update_tracks_event demo_utils demo_platform
             (ChannelUpdate.mk "Dota 2" "Watching animes") (demo_seconds 5000)
             demo_self demo_world).
    exact demo_platform_reliable.
Defined.

(** When a call of the handler raises, the two assignments are not reached:
    the tracker keeps the game and title it had. *)
Lemma channel_update_interrupted U P update now s w c :
  let r := channel_update U P update now s w in
  result r = Raised c →
  game_tracked (self r) = game_tracked s ∧ title_tracked (self r) = title_tracked s.
Proof.
  intros r. subst r. destruct w as [gid ttl tbl lines cs]. run.
  destruct (bool_decide (game_tracked s ≠ _) && bool_decide (_ > 15)); cbn;
    case_raises; try done;
    destruct (bool_decide (title_tracked s ≠ _) && bool_decide (_ > 15)); cbn;
    case_raises; try done;
    destruct (bool_decide (title_tracked s ≠ _)); cbn;
    case_raises; done.
Qed.

(** ** The table of titles *)

Lemma filter_none {A} (Q : A → Prop) `{∀ x, Decision (Q x)} (l : list A) :
  Forall (λ x, ¬ Q x) l → filter Q l = [].
Proof.
  induction 1 as [|x l Hx _ IH]; [done|]. by rewrite filter_cons_False.
Qed.

(** A title that is in the table has one row there. *)
Lemma rows_of_title (tbl : gmap string Z) (title : string) (e : Z) :
  tbl !! title = Some e →
  filter (λ row : string * Z, row.1 = title) (map_to_list tbl) = [(title, e)].
Proof.
  intros Hin. apply Permutation_singleton_r.
  rewrite <- (insert_delete_id tbl title e Hin).
  rewrite map_to_list_insert by apply lookup_delete_eq.
  rewrite filter_cons_True by done.
  apply Permutation_cons; [done|].
  rewrite filter_none; [done|].
  apply Forall_forall. intros [t e'] Hrow%elem_of_map_to_list Ht. simpl in Ht. subst t.
  by rewrite lookup_delete_eq in Hrow.
Qed.

Lemma upsert_upsert (tbl : gmap string Z) (title : string) (e1 e2 : Z) :
  Sql.upsert title e2 (Sql.upsert title e1 tbl) = Sql.upsert title e2 tbl.
Proof. apply insert_insert_eq. Qed.

Lemma upsert_lookup (tbl : gmap string Z) (title : string) (e : Z) :
  Sql.upsert title e tbl !! title = Some e.
Proof. apply lookup_insert_eq. Qed.

Lemma upsert_size_again (tbl : gmap string Z) (title : string) (e1 e2 : Z) :
  size (Sql.upsert title e2 (Sql.upsert title e1 tbl)) = size (Sql.upsert title e1 tbl).
Proof.
  unfold Sql.upsert. rewrite <- (insert_delete_eq (<[title:=e1]> tbl)).
  rewrite <- (insert_delete_eq tbl title e1) at 2.
  rewrite delete_insert_eq.
  by rewrite !map_size_insert_None by apply lookup_delete_eq.
Qed.

(** C4. An event whose title differs from the tracked one writes the row
    (title, now) into the history, whatever the two time stamps of the
    tracker are; the other rows are left as they were. Writing a title a
    second time replaces the edit time of its row: the table then holds one
    row for the title, with the second edit time, and has not grown. *)
Theorem title_change_recorded U P update now s w :
  reliable P →
  title_tracked s ≠ ChannelUpdate.title update →
  let r := channel_update U P update now s w in
  let title := ChannelUpdate.title update in
  ttv_stream_titles (world r) = Sql.upsert title now (ttv_stream_titles w)
  ∧ ttv_stream_titles (world r) !! title = Some now
  ∧ (∀ t, t ≠ title → ttv_stream_titles (world r) !! t = ttv_stream_titles w !! t)
  ∧ (∀ (tbl : gmap string Z) (e1 e2 : Z),
       let twice := Sql.upsert title e2 (Sql.upsert title e1 tbl) in
       twice = Sql.upsert title e2 tbl
       ∧ filter (λ row : string * Z, row.1 = title) (map_to_list twice) = [(title, e2)]
       ∧ size twice = size (Sql.upsert title e1 tbl)).
Proof.
  intros HP Hne r title. subst r title.
  rewrite channel_update_table by done.
  rewrite bool_decide_eq_true_2 by done.
  repeat split.
  - apply upsert_lookup.
  - intros t Ht. unfold Sql.upsert. by rewrite lookup_insert_ne.
  - apply upsert_upsert.
  - apply rows_of_title, upsert_lookup.
  - apply upsert_size_again.
Qed.

(** The title changes to one the history already holds, within the window of
    a bot-initiated title change. *)
Lemma title_change_recorded_witness :
  let update := ChannelUpdate.mk "Dota 2" "Chatting" in
  let r := channel_update demo_utils demo_platform update (demo_seconds 1005)
             demo_self demo_world in
  title_tracked demo_self ≠ ChannelUpdate.title update
  ∧ ttv_stream_titles (world r) !! "Chatting" = Some (demo_seconds 1005)
  ∧ filter (λ row : string * Z, row.1 = "Chatting")
      (map_to_list (ttv_stream_titles (world r))) = [("Chatting", demo_seconds 1005)]
  ∧ posted demo_world (world r) = [].
Proof.
  pose proof (title_change_recorded demo_utils demo_platform
                (ChannelUpdate.mk "Dota 2" "Chatting") (demo_seconds 1005)
                demo_self demo_world demo_platform_reliable ltac:(discriminate))
    as (Htbl & Hrow & _ & Htwice).
  split; [discriminate|]. split; [exact Hrow|]. split.
  - rewrite Htbl. apply rows_of_title, upsert_lookup.
  - vm_compute. reflexivity.
Defined.

#[global] Instance newer_first_total : Total Sql.newer_first.
Proof. intros r1 r2. unfold Sql.newer_first. lia. Qed.

Lemma order_by_edit_time_desc_sorted (tbl : gmap string Z) :
  Sorted Sql.newer_first (Sql.order_by_edit_time_desc tbl).
Proof. apply Sorted_merge_sort, _. Qed.

Lemma order_by_edit_time_desc_rows (tbl : gmap string Z) :
  Sql.order_by_edit_time_desc tbl ≡ₚ map_to_list tbl.
Proof. apply merge_sort_Permutation. Qed.

(** [OFFSET k] for [k >= 1] counts from the row after the newest one. *)
Lemma select_title_previous (tbl : gmap string Z) (k : Z) :
  1 ≤ k →
  Sql.select_title k tbl
  = fst <$> (tail (Sql.order_by_edit_time_desc tbl) !! Z.to_nat (k - 1)).
Proof.
  intros Hk. unfold Sql.select_title. rewrite lookup_tail.
  by replace (S (Z.to_nat (k - 1))) with (Z.to_nat k) by lia.
Qed.

(** ** [!title restore] *)

Lemma int64_max_value : int64_max = 9223372036854775807.
Proof. reflexivity. Qed.

Lemma title_restore_fetched U P ctx k now s w :
  raises P w (pool_fetchval k) = false → 0 ≤ k ≤ int64_max →
  title_restore U P ctx k now s w =
    match Sql.select_title k (ttv_stream_titles w) with
    | None => ctx_send P "No change: the database doesn't keep such title."
    | Some title =>
        update_title P title now ;;
        ctx_send P ("Set the title to " +:+ ordinal U k +:+ " in history: " +:+ title)
    end s (log (pool_fetchval k) w).
Proof.
  intros HP Hk. unfold title_restore, bot_pool_fetchval.
  destruct (Z.ltb_spec k 0) as [?|_]; [lia|].
  destruct (Z.ltb_spec int64_max k) as [?|_]; [lia|]. cbn [orb].
  unfold bind at 1. unfold await at 1. by rewrite HP.
Qed.

(** An offset outside the range of [bigint], or a negative one, is refused
    where the row is fetched: the handler stops there, having sent nothing
    and changed nothing. *)
Lemma title_restore_refused U P ctx k now s w :
  k < 0 ∨ int64_max < k →
  title_restore U P ctx k now s w =
    {| result := Raised (pool_fetchval k); self := s; world := log (pool_fetchval k) w |}.
Proof.
  intros Hk. unfold title_restore, bot_pool_fetchval.
  destruct (Z.ltb_spec k 0) as [?|?], (Z.ltb_spec int64_max k) as [?|?];
    try lia; reflexivity.
Qed.

(** C5, as the code has it: the offset is a [bigint]. For an offset
    [1 <= k <= 2^63 - 1], [!title restore k] reads the rows newest first,
    leaves out the newest (offset 0, the current title) and takes the [k]-th
    of the rest. If there is one, its title goes through [update_title] (the
    title stamp is set to now and the channel gets the title) and the reply
    names the ordinal [k]. If there is none, the reply says so, and neither
    the channel nor the tracker changes. *)
Theorem title_restore_kth_previous U P ctx k now s w :
  reliable P → 1 ≤ k ≤ int64_max →
  let rows := Sql.order_by_edit_time_desc (ttv_stream_titles w) in
  let r := title_restore U P ctx k now s w in
  Sorted Sql.newer_first rows
  ∧ rows ≡ₚ map_to_list (ttv_stream_titles w)
  ∧ match tail rows !! Z.to_nat (k - 1) with
    | Some row =>
        let reply := "Set the title to " +:+ ordinal U k +:+ " in history: " +:+ row.1 in
        r = (update_title P row.1 now ;; ctx_send P reply) s (log (pool_fetchval k) w)
        ∧ result r = Returned tt
        ∧ channel_title (world r) = row.1
        ∧ channel_game_id (world r) = channel_game_id w
        ∧ title_updated_dt (self r) = now
        ∧ posted w (world r) = [reply]
        ∧ issued w (world r)
          = [pool_fetchval k; modify_channel None (Some row.1); send reply]
    | None =>
        let reply := "No change: the database doesn't keep such title." in
        result r = Returned tt
        ∧ self r = s
        ∧ same_channel w (world r)
        ∧ ttv_stream_titles (world r) = ttv_stream_titles w
        ∧ posted w (world r) = [reply]
        ∧ issued w (world r) = [pool_fetchval k; send reply]
    end.
Proof.
  intros HP Hk rows r. subst rows r.
  split; [apply order_by_edit_time_desc_sorted|].
  split; [apply order_by_edit_time_desc_rows|].
  rewrite title_restore_fetched by (done || lia).
  rewrite select_title_previous by lia.
  destruct (tail _ !! _) as [[title e]|]; cbn [fmap option_fmap option_map fst].
  - split; [done|]. destruct w as [gid ttl tbl lines cs]. run. rewrite !HP.
    unfold issued, posted, log, post, patch_channel. simpl.
    by rewrite <- ?app_assoc, !drop_app_length.
  - destruct w as [gid ttl tbl lines cs]. run. rewrite !HP.
    unfold issued, posted, same_channel, log, post. simpl.
    by rewrite <- ?app_assoc, !drop_app_length.
Qed.

(** A history of three past titles below the current one: "Elden Ring
    Hype", "Chatting", "Dota 2 grind". *)
Lemma title_restore_kth_previous_witness :
  let restore k :=
    title_restore demo_utils demo_platform demo_mod k (demo_seconds 5000)
      demo_self demo_world in
  tail (Sql.order_by_edit_time_desc demo_table)
  = [("Elden Ring Hype", demo_seconds 300); ("Chatting", demo_seconds 200);
     ("Dota 2 grind", demo_seconds 100)]
  ∧ (channel_title (world (restore 1)) = "Elden Ring Hype"
     ∧ title_updated_dt (self (restore 1)) = demo_seconds 5000
     ∧ posted demo_world (world (restore 1))
       = ["Set the title to 1st in history: Elden Ring Hype"])
  ∧ channel_title (world (restore 3)) = "Dota 2 grind"
  ∧ (self (restore 10) = demo_self
     ∧ same_channel demo_world (world (restore 10))
     ∧ posted demo_world (world (restore 10))
       = ["No change: the database doesn't keep such title."]).
Proof.
  assert (Hrows : tail (Sql.order_by_edit_time_desc demo_table)
                  = [("Elden Ring Hype", demo_seconds 300);
                     ("Chatting", demo_seconds 200);
                     ("Dota 2 grind", demo_seconds 100)])
    by (vm_compute; reflexivity).
  pose proof (title_restore_kth_previous demo_utils demo_platform demo_mod 1
                (demo_seconds 5000) demo_self demo_world demo_platform_reliable
                ltac:(rewrite int64_max_value; lia)) as H1.
  pose proof (title_restore_kth_previous demo_utils demo_platform demo_mod 3
                (demo_seconds 5000) demo_self demo_world demo_platform_reliable
                ltac:(rewrite int64_max_value; lia)) as H3.
  pose proof (title_restore_kth_previous demo_utils demo_platform demo_mod 10
                (demo_seconds 5000) demo_self demo_world demo_platform_reliable
                ltac:(rewrite int64_max_value; lia)) as H10.
  cbv zeta in H1, H3, H10.
  change (ttv_stream_titles demo_world) with demo_table in H1, H3, H10.
  rewrite Hrows in H1, H3, H10.
  destruct H1 as (_ & _ & _ & _ & H1t & _ & H1s & H1p & _).
  destruct H3 as (_ & _ & _ & _ & H3t & _).
  destruct H10 as (_ & _ & _ & H10s & H10c & _ & H10p & _).
  cbv zeta. split; [exact Hrows|]. split; [|split; [exact H3t|]].
  - split; [exact H1t|]. split; [exact H1s|exact H1p].
  - split; [exact H10s|]. split; [exact H10c|exact H10p].
Defined.

(** C5 as it is worded, for every offset [k >= 1], fails at [k = 2^63]: the
    history has four rows, so there is no row at that offset, every
    collaborator answers, and yet the handler raises where it fetches the
    row; no line is posted, the one call is the refused fetch. *)
Lemma title_restore_beyond_bigint_raises :
  1 ≤ 2 ^ 63
  ∧ reliable demo_platform
  ∧ length (Sql.order_by_edit_time_desc (ttv_stream_titles demo_world)) = 4%nat
  ∧ result (title_restore demo_utils demo_platform demo_mod (2 ^ 63) (demo_seconds 5000)
              demo_self demo_world) = Raised (pool_fetchval (2 ^ 63))
  ∧ posted demo_world
      (world (title_restore demo_utils demo_platform demo_mod (2 ^ 63)
                (demo_seconds 5000) demo_self demo_world)) = []
  ∧ issued demo_world
      (world (title_restore demo_utils demo_platform demo_mod (2 ^ 63)
                (demo_seconds 5000) demo_self demo_world)) = [pool_fetchval (2 ^ 63)].
Proof.
  split; [done|]. split; [exact demo_platform_reliable|].
  split; [vm_compute; reflexivity|].
  rewrite title_restore_refused by (right; rewrite int64_max_value; lia).
  split; [done|]. split; reflexivity.
Qed.

(** ** [stream_offline] *)

Lemma delete_older_lookup (tbl : gmap string Z) (cutoff_dt : Z) (title : string) (e : Z) :
  Sql.delete_older cutoff_dt tbl !! title = Some e
  ↔ tbl !! title = Some e ∧ ¬ (e < cutoff_dt).
Proof. unfold Sql.delete_older. by rewrite map_lookup_filter_Some. Qed.

Lemma delete_older_twice (tbl : gmap string Z) (cutoff_dt : Z) :
  Sql.delete_older cutoff_dt (Sql.delete_older cutoff_dt tbl)
  = Sql.delete_older cutoff_dt tbl.
Proof.
  apply map_eq. intros title. apply option_eq. intros e.
  rewrite !delete_older_lookup. tauto.
Qed.

(** C8. On stream-offline the rows whose [edit_time] is before
    [now - 30 days] go and all the others stay, the row whose [edit_time] is
    the cutoff among them; a second run with the same clock reading deletes
    nothing more. *)
Theorem stream_offline_prunes P now s w :
  reliable P →
  let cutoff := now - 30 * datetime.us_per_day in
  let r := clear_the_database P now s w in
  result r = Returned tt
  ∧ (∀ title e,
       ttv_stream_titles (world r) !! title = Some e
       ↔ ttv_stream_titles w !! title = Some e ∧ ¬ (e < cutoff))
  ∧ (∀ title,
       ttv_stream_titles w !! title = Some cutoff →
       ttv_stream_titles (world r) !! title = Some cutoff)
  ∧ ttv_stream_titles (world (clear_the_database P now (self r) (world r)))
    = ttv_stream_titles (world r)
  ∧ issued w (world r) = [pool_execute_delete cutoff]
  ∧ self r = s ∧ same_channel w (world r) ∧ posted w (world r) = [].
Proof.
  intros HP cutoff r. subst r.
  unfold clear_the_database. rewrite sub_timedelta_days_30. fold cutoff.
  destruct w as [gid ttl tbl lines cs]. run. rewrite !HP. cbn.
  unfold issued, posted, same_channel. cbn. rewrite !drop_app_length.
  split; [done|]. split; [intros title e; apply delete_older_lookup|].
  split; [|split; [apply delete_older_twice|by rewrite drop_all]].
  intros title Ht. apply delete_older_lookup. split; [done|lia].
Qed.

(** The clock reads 30 days and 200 s: "Dota 2 grind" (100 s) is older than
    the cutoff and goes, "Chatting" (200 s) is at the cutoff and stays. *)
Lemma stream_offline_prunes_witness :
  let now := 30 * datetime.us_per_day + demo_seconds 200 in
  let r := clear_the_database demo_platform now demo_self demo_world in
  reliable demo_platform
  ∧ result r = Returned tt
  ∧ ttv_stream_titles (world r) !! "Dota 2 grind" = None
  ∧ ttv_stream_titles (world r) !! "Chatting" = Some (demo_seconds 200)
  ∧ ttv_stream_titles (world (clear_the_database demo_platform now (self r) (world r)))
    = ttv_stream_titles (world r).
Proof.
  pose proof (stream_offline_prunes demo_platform
                (30 * datetime.us_per_day + demo_seconds 200) demo_self demo_world
                demo_platform_reliable) as (Hres & _ & Hcut & Htwice & _).
  split; [exact demo_platform_reliable|]. split; [exact Hres|].
  split; [vm_compute; reflexivity|]. split; [|exact Htwice].
  apply Hcut. vm_compute. reflexivity.
Defined.

(** ** Who may change the game and the title *)

(** C9. A caller who is not a moderator and gives an argument to [!game] or
    [!title] gets the rejection line and nothing else happens: the handler
    issues the one [send], the tracker (tracked game and title, both stamps),
    the channel and the history are as before. *)
Theorem non_moderator_changes_nothing U P ctx arg now s w :
  Context.chatter_moderator ctx = false → arg ≠ EmptyString →
  let rejected (r : Run unit) (reply : string) :=
    self r = s
    ∧ same_channel w (world r)
    ∧ ttv_stream_titles (world r) = ttv_stream_titles w
    ∧ issued w (world r) = [send reply]
    ∧ posted w (world r) = (if raises P w (send reply) then [] else [reply])
    ∧ result r = (if raises P w (send reply) then Raised (send reply) else Returned tt) in
  rejected (game U P ctx (Some arg) now s w)
    ("Only moderators are allowed to change game name " +:+ FFZ_peepoPolice U)
  ∧ rejected (title_group U P ctx arg now s w)
      ("Only moderators are allowed to change title " +:+ FFZ_peepoPolice U).
Proof.
  intros Hmod Harg rejected. subst rejected. cbv beta.
  rewrite game_non_mod, title_group_non_mod by done.
  rewrite !ctx_send_run. unfold same_channel, issued, posted. cbn.
  rewrite !drop_app_length. done.
Qed.

Lemma non_moderator_changes_nothing_witness :
  Context.chatter_moderator demo_viewer = false
  ∧ self (game demo_utils demo_platform demo_viewer (Some "er") (demo_seconds 5000)
            demo_self demo_world) = demo_self
  ∧ posted demo_world
      (world (game demo_utils demo_platform demo_viewer (Some "er") (demo_seconds 5000)
                demo_self demo_world))
    = ["Only moderators are allowed to change game name peepoPolice"]
  ∧ self (title_group demo_utils demo_platform demo_viewer "Chatting"
            (demo_seconds 5000) demo_self demo_world) = demo_self
  ∧ posted demo_world
      (world (title_group demo_utils demo_platform demo_viewer "Chatting"
                (demo_seconds 5000) demo_self demo_world))
    = ["Only moderators are allowed to change title peepoPolice"].
Proof.
  pose proof (non_moderator_changes_nothing demo_utils demo_platform demo_viewer "er"
                (demo_seconds 5000) demo_self demo_world eq_refl ltac:(discriminate))
    as [(Hs & _ & _ & _ & Hp & _) _].
  pose proof (non_moderator_changes_nothing demo_utils demo_platform demo_viewer
                "Chatting" (demo_seconds 5000) demo_self demo_world eq_refl
                ltac:(discriminate))
    as [_ (Hs' & _ & _ & _ & Hp' & _)].
  split; [reflexivity|]. split; [exact Hs|]. split; [exact Hp|].
  split; [exact Hs'|exact Hp'].
Defined.

(** ** The keyword that clears the category *)

(** C7. A moderator's [!game clear] (in any casing) stamps the game time,
    asks the platform for category id ["0"] and confirms, and issues no other
    call: the game search is not consulted, so the command goes through
    whatever the search would have answered or raised. The platform's
    accepting the change and the chat's taking the reply are assumed. *)
Theorem game_clear_without_search U P ctx arg now s w :
  Context.chatter_moderator ctx = true → lower arg = "clear" →
  raises P w (modify_channel (Some "0") None) = false →
  (∀ w' line, raises P w' (send line) = false) →
  let r := game U P ctx (Some arg) now s w in
  let reply :=
    "Set game to " +:+ dq +:+ "No game category" +:+ dq +:+ " " +:+ STV_uuh U in
  result r = Returned tt
  ∧ issued w (world r) = [modify_channel (Some "0") None; send reply]
  ∧ (∀ names, fetch_games names ∉ issued w (world r))
  ∧ game_updated_dt (self r) = now
  ∧ channel_game_id (world r) = "0"
  ∧ channel_title (world r) = channel_title w
  ∧ posted w (world r) = [reply].
Proof.
  intros Hmod Harg Hmodify Hsend r reply. subst r reply.
  rewrite game_clear by done. destruct w as [gid ttl tbl lines cs].
  run. rewrite Hmodify. cbn. rewrite Hsend. cbn.
  unfold issued, posted. cbn. rewrite <- ?app_assoc, !drop_app_length. cbn.
  repeat split; try done.
  intros names [H|H%list_elem_of_singleton]%elem_of_cons; discriminate.
Qed.

Lemma game_clear_without_search_witness :
  let r := game demo_utils demo_platform_no_search demo_mod (Some "clear")
             (demo_seconds 5000) demo_self demo_world in
  raises demo_platform_no_search demo_world (fetch_games ["clear"]) = true
  ∧ result r = Returned tt
  ∧ issued demo_world (world r)
    = [modify_channel (Some "0") None;
       send ("Set game to " +:+ dq +:+ "No game category" +:+ dq +:+ " uuh")]
  ∧ game_updated_dt (self r) = demo_seconds 5000
  ∧ channel_game_id (world r) = "0".
Proof.
  pose proof (game_clear_without_search demo_utils demo_platform_no_search demo_mod
                "clear" (demo_seconds 5000) demo_self demo_world eq_refl eq_refl
                eq_refl (λ _ _, eq_refl))
    as (Hres & Hcalls & _ & Hstamp & Hid & _).
  split; [reflexivity|]. split; [exact Hres|]. split; [exact Hcalls|].
  split; [exact Hstamp|exact Hid].
Defined.

(** ** Keywords of [!game] *)

(** C10. The first call of a moderator's [!game arg] tells how [arg] was
    read. If [arg.lower()] is "clear" the handler goes straight to
    [modify_channel(game_id="0")], so any casing of the keyword clears the
    category. Otherwise it searches: for "Dota 2" when [arg] is exactly
    "dota", for "Elden Ring" when [arg] is exactly "er", and for [arg] as
    typed in every other case, other casings of the two shorthands
    included. *)
Theorem game_keyword_matching U P ctx arg now s w :
  Context.chatter_moderator ctx = true → arg ≠ EmptyString →
  let r := game U P ctx (Some arg) now s w in
  head (issued w (world r)) =
    Some (if decide (lower arg = "clear") then modify_channel (Some "0") None
          else fetch_games [if decide (arg = "dota") then "Dota 2"
                            else if decide (arg = "er") then "Elden Ring"
                            else arg]).
Proof.
  intros Hmod Harg r. subst r.
  destruct (decide (lower arg = "clear")) as [Hclear|Hclear].
  - rewrite game_clear by done. destruct w as [gid ttl tbl lines cs].
    run. case_raises; unfold issued; cbn;
      by rewrite <- ?app_assoc, drop_app_length.
  - rewrite game_lookup, game_keywords_get by done.
    set (name := if decide (arg = "dota") then _ else _).
    destruct w as [gid ttl tbl lines cs].
    run. destruct (raises P _ (fetch_games _)); cbn;
      [|destruct (head (games_named P [name])); cbn; case_raises];
      unfold issued; cbn; by rewrite <- ?app_assoc, drop_app_length.
Qed.

Lemma game_keyword_matching_witness :
  let first_call arg :=
    head (issued demo_world
            (world (game demo_utils demo_platform demo_mod (Some arg)
                      (demo_seconds 5000) demo_self demo_world))) in
  first_call "CLEAR" = Some (modify_channel (Some "0") None)
  ∧ first_call "Clear" = Some (modify_channel (Some "0") None)
  ∧ first_call "dota" = Some (fetch_games ["Dota 2"])
  ∧ first_call "er" = Some (fetch_games ["Elden Ring"])
  ∧ first_call "Dota" = Some (fetch_games ["Dota"])
  ∧ first_call "ER" = Some (fetch_games ["ER"]).
Proof.
  cbv zeta.
  repeat match goal with |- _ ∧ _ => split end;
    match goal with
    | |- head (issued _ (world (game _ _ _ (Some ?arg) _ _ _))) = _ =>
        exact (game_keyword_matching demo_utils demo_platform demo_mod arg
                 (demo_seconds 5000) demo_self demo_world eq_refl
                 ltac:(discriminate))
    end.
Defined.

(** ** A refused [modify_channel] *)

Ltac not_issued H :=
  unfold issued in H; cbn in H;
  rewrite <- ?app_assoc, ?drop_app_length, ?drop_all in H;
  repeat (apply elem_of_cons in H as [H|H]; [discriminate H|]);
  by apply elem_of_nil in H.

Ltac failed_modify :=
  unfold same_channel, posted; cbn;
  first [ discriminate
        | intros [= <- <-]; rewrite ?drop_all; repeat split; done
        | intros [= <-]; rewrite ?drop_all; repeat split; done
        | intros _; rewrite ?drop_all; repeat split; done ].

Ltac stamped_first :=
  split; [ let H := fresh "Hin" in intros H; first [ reflexivity | not_issued H ]
         | failed_modify ].

(** C6. In [!game], and in [update_title] with the commands that call it
    ([!title], [!title set], [!title restore]), the time stamp of the change
    is set to now before [modify_channel] is called: in every run in which
    the call was issued the stamp equals now, whether the call went through
    or raised. When the handler stops because the call raised, the stamp
    stays, while the channel is as it was, no confirmation has been posted
    and the tracked game and title are untouched. *)
Theorem stamp_outlives_failed_modify U P ctx now s w gid ttl :
  let stamped_first (r : Run unit) (stamp : ChannelManagement → Z) :=
    (modify_channel gid ttl ∈ issued w (world r) → stamp (self r) = now)
    ∧ (result r = Raised (modify_channel gid ttl) →
       stamp (self r) = now
       ∧ same_channel w (world r)
       ∧ posted w (world r) = []
       ∧ game_tracked (self r) = game_tracked s
       ∧ title_tracked (self r) = title_tracked s) in
  (∀ game_name, stamped_first (game U P ctx game_name now s w) game_updated_dt)
  ∧ (∀ title, stamped_first (update_title P title now s w) title_updated_dt)
  ∧ (∀ title, stamped_first (title_group U P ctx title now s w) title_updated_dt)
  ∧ (∀ title, stamped_first (title_set U P ctx title now s w) title_updated_dt)
  ∧ (∀ offset, stamped_first (title_restore U P ctx offset now s w) title_updated_dt).
Proof.
  intros stamped_first. subst stamped_first. cbv beta.
  destruct w as [id0 title0 tbl lines cs].
  split; [|split; [|split; [|split]]].
  - intros [arg|]; [destruct (decide (arg = EmptyString)) as [->|Harg]|].
    + run. case_raises; stamped_first.
    + destruct (Context.chatter_moderator ctx) eqn:Hmod.
      * destruct (decide (lower arg = "clear")).
        -- rewrite game_clear by done. run. case_raises; stamped_first.
        -- rewrite game_lookup by done.
           run. destruct (raises P _ (fetch_games _)); cbn; [stamped_first|].
           destruct (head (games_named P _)); cbn; case_raises; stamped_first.
      * rewrite game_non_mod by done. run. case_raises; stamped_first.
    + run. case_raises; stamped_first.
  - intros title. run. case_raises; stamped_first.
  - intros title. destruct (decide (title = EmptyString)) as [->|Harg].
    + run. case_raises; stamped_first.
    + destruct (Context.chatter_moderator ctx) eqn:Hmod.
      * rewrite title_group_mod by done. run. case_raises; stamped_first.
      * rewrite title_group_non_mod by done. run. case_raises; stamped_first.
  - intros title. run. case_raises; stamped_first.
  - intros offset. unfold title_restore, bot_pool_fetchval.
    destruct ((offset <? 0) || (int64_max <? offset)); [run; stamped_first|].
    run. destruct (raises P _ (pool_fetchval _)); cbn; [stamped_first|].
    destruct (Sql.select_title offset tbl); cbn; case_raises; stamped_first.
Qed.

(** The platform refuses the change: [!game er] and [!title Chatting] stop
    there, stamped. *)
Lemma stamp_outlives_failed_modify_witness :
  let rg := game demo_utils demo_platform_modify_fails demo_mod (Some "er")
              (demo_seconds 5000) demo_self demo_world in
  let rt := title_group demo_utils demo_platform_modify_fails demo_mod "Chatting"
              (demo_seconds 5000) demo_self demo_world in
  (result rg = Raised (modify_channel (Some "512953") None)
   ∧ game_updated_dt (self rg) = demo_seconds 5000
   ∧ same_channel demo_world (world rg)
   ∧ posted demo_world (world rg) = [])
  ∧ (result rt = Raised (modify_channel None (Some "Chatting"))
     ∧ title_updated_dt (self rt) = demo_seconds 5000
     ∧ same_channel demo_world (world rt)
     ∧ posted demo_world (world rt) = []).
Proof.
  pose proof (stamp_outlives_failed_modify demo_utils demo_platform_modify_fails
                demo_mod (demo_seconds 5000) demo_self demo_world
                (Some "512953") None) as (Hg & _).
  pose proof (stamp_outlives_failed_modify demo_utils demo_platform_modify_fails
                demo_mod (demo_seconds 5000) demo_self demo_world
                None (Some "Chatting")) as (_ & _ & Ht & _).
  destruct (Hg (Some "er")) as [_ Hg']. destruct (Ht "Chatting") as [_ Ht'].
  specialize (Hg' eq_refl). specialize (Ht' eq_refl). clear Hg Ht.
  rename Hg' into Hg, Ht' into Ht.
  destruct Hg as (Hg1 & Hg2 & Hg3 & _), Ht as (Ht1 & Ht2 & Ht3 & _).
  cbv zeta. split.
  - split; [reflexivity|]. split; [exact Hg1|]. split; [exact Hg2|exact Hg3].
  - split; [reflexivity|]. split; [exact Ht1|]. split; [exact Ht2|exact Ht3].
Defined.

(** * The rest of [ext/management.py] *)

(** ** [channel_update]: what it leaves alone, repeats and order *)

Ltac case_path :=
  repeat match goal with
    | |- context [raises ?P ?w ?c] => destruct (raises P w c) eqn:?; cbn
    | |- context [bool_decide ?Q && bool_decide ?R] =>
        destruct (bool_decide Q && bool_decide R); cbn
    | |- context [bool_decide ?Q] => destruct (bool_decide Q); cbn
    end.

Ltac demo_time := vm_compute; split; first [discriminate | reflexivity].
Ltac demo_differ := vm_compute; discriminate.
Ltac demo_time_le := vm_compute; discriminate.

Ltac only_these H :=
  unfold issued in H; cbn in H;
  rewrite <- ?app_assoc, ?drop_app_length, ?drop_all in H;
  repeat (apply elem_of_cons in H as [->|H]; [eauto|]);
  by apply elem_of_nil in H.

(** X1. Whatever the collaborators do, [channel_update] leaves both time
    stamps and the channel as they were, touches no row of the history but
    the one of the event's title, calls nothing but [send_message] (as the
    bot) and the upsert of the event's title at now, and posts at most two
    lines. *)
Theorem channel_update_frame U P update now s w :
  let r := channel_update U P update now s w in
  game_updated_dt (self r) = game_updated_dt s
  ∧ title_updated_dt (self r) = title_updated_dt s
  ∧ same_channel w (world r)
  ∧ (∀ t, t ≠ ChannelUpdate.title update →
          ttv_stream_titles (world r) !! t = ttv_stream_titles w !! t)
  ∧ (∀ c, c ∈ issued w (world r) →
          (∃ line, c = send_message (UserID_Bot U) line)
          ∨ c = pool_execute_upsert (ChannelUpdate.title update) now)
  ∧ (length (posted w (world r)) ≤ 2)%nat.
Proof.
  intros r. subst r. destruct w as [gid ttl tbl lines cs]. run.
  case_path;
    (split; [done|]; split; [done|]; split; [done|]; split;
     [intros t Ht; unfold Sql.upsert; by rewrite ?lookup_insert_ne by done|];
     split; [intros c Hc; only_these Hc|];
     unfold posted; cbn; rewrite <- ?app_assoc, ?drop_app_length, ?drop_all; cbn; lia).
Qed.

(** X2. An event handled a second time, at any later reading of the clock,
    does nothing: no call, no line, the same table and the same tracker. *)
Theorem channel_update_repeated_is_idle U P update now now' s w :
  reliable P →
  let r := channel_update U P update now s w in
  let r' := channel_update U P update now' (self r) (world r) in
  result r' = Returned tt
  ∧ self r' = self r
  ∧ world r' = world r.
Proof.
  intros HP r r'. subst r'.
  rewrite (channel_update_run U P HP update now' (self r) (world r)).
  subst r. rewrite (channel_update_self U P HP update now s w).
  generalize (world (channel_update U P update now s w)).
  intros [gid ttl tbl lines cs].
  cbn [game_tracked title_tracked game_updated_dt title_updated_dt].
  rewrite !(bool_decide_eq_false_2 (_ ≠ _)) by (intros H; by apply H).
  cbn. by rewrite !app_nil_r.
Qed.

Lemma channel_update_repeated_is_idle_witness :
  let update := ChannelUpdate.mk "Elden Ring" "Chatting" in
  let r := channel_update demo_utils demo_platform update (demo_seconds 5000)
             demo_self demo_world in
  let r' := channel_update demo_utils demo_platform update (demo_seconds 9000)
              (self r) (world r) in
  posted demo_world (world r)
  = [game_announcement demo_utils "Elden Ring"; title_announcement demo_utils "Chatting"]
  ∧ (result r' = Returned tt ∧ self r' = self r ∧ world r' = world r).
Proof.
  split; [vm_compute; reflexivity|].
  apply (channel_update_repeated_is_idle demo_utils demo_platform
           (ChannelUpdate.mk "Elden Ring" "Chatting") (demo_seconds 5000)
           (demo_seconds 9000) demo_self demo_world demo_platform_reliable).
Defined.

(** X3. When game and title both changed and both stamps are between 16
    seconds and a day old, the handler announces the game, then the title,
    then records the title: three calls in this order, two lines. *)
Theorem channel_update_announces_game_then_title U P update now s w :
  reliable P →
  game_tracked s ≠ ChannelUpdate.category_name update →
  title_tracked s ≠ ChannelUpdate.title update →
  16 * datetime.us_per_second ≤ now - game_updated_dt s < datetime.us_per_day →
  16 * datetime.us_per_second ≤ now - title_updated_dt s < datetime.us_per_day →
  let r := channel_update U P update now s w in
  let about_game := game_announcement U (ChannelUpdate.category_name update) in
  let about_title := title_announcement U (ChannelUpdate.title update) in
  posted w (world r) = [about_game; about_title]
  ∧ issued w (world r)
    = [send_message (UserID_Bot U) about_game;
       send_message (UserID_Bot U) about_title;
       pool_execute_upsert (ChannelUpdate.title update) now].
Proof.
  intros HP Hg Ht Hgt Htt r about_game about_title. subst r about_game about_title.
  rewrite (channel_update_run U P HP update now s w). cbn [world chat calls].
  rewrite !(bool_decide_eq_true_2 (_ ≠ _)) by done.
  rewrite !(bool_decide_eq_true_2 (_ > 15))
    by (apply seconds_gt_15_same_day;
        unfold datetime.us_per_day, datetime.us_per_second in *; lia).
  cbn. split; [by apply posted_app|by apply issued_app].
Qed.

Lemma channel_update_announces_game_then_title_witness :
  let update := ChannelUpdate.mk "Elden Ring" "Chatting" in
  let r := channel_update demo_utils demo_platform update (demo_seconds 5000)
             demo_self demo_world in
  posted demo_world (world r)
  = [game_announcement demo_utils "Elden Ring"; title_announcement demo_utils "Chatting"]
  ∧ issued demo_world (world r)
    = [send_message (UserID_Bot demo_utils) (game_announcement demo_utils "Elden Ring");
       send_message (UserID_Bot demo_utils) (title_announcement demo_utils "Chatting");
       pool_execute_upsert "Chatting" (demo_seconds 5000)].
Proof.
  apply (channel_update_announces_game_then_title demo_utils demo_platform
           (ChannelUpdate.mk "Elden Ring" "Chatting") (demo_seconds 5000)
           demo_self demo_world demo_platform_reliable);
    first [demo_differ | demo_time].
Defined.

(** ** A bot-initiated title change and its echo *)

Lemma title_group_changed_run U P ctx title now s w :
  reliable P →
  Context.chatter_moderator ctx = true → title ≠ EmptyString →
  title_group U P ctx title now s w =
    let reply := STV_donkHappy U +:+ " Changed title to " +:+ dq +:+ title +:+ dq in
    {| result := Returned tt;
       self := {| game_tracked := game_tracked s;
                  title_tracked := title_tracked s;
                  game_updated_dt := game_updated_dt s;
                  title_updated_dt := now |};
       world := {| channel_game_id := channel_game_id w;
                   channel_title := title;
                   ttv_stream_titles := ttv_stream_titles w;
                   chat := chat w ++ [reply];
                   calls := calls w ++ [modify_channel None (Some title); send reply] |} |}.
Proof.
  intros HP Hmod Htitle. rewrite title_group_mod by done.
  destruct w as [gid ttl tbl lines cs]. run. rewrite !HP.
  unfold post, log, patch_channel. cbn. by rewrite <- !app_assoc.
Qed.

Lemma title_set_run U P ctx title now s w :
  reliable P →
  title_set U P ctx title now s w =
    let reply := STV_donkHappy U +:+ " Set title to " +:+ dq +:+ title +:+ dq in
    {| result := Returned tt;
       self := {| game_tracked := game_tracked s;
                  title_tracked := title_tracked s;
                  game_updated_dt := game_updated_dt s;
                  title_updated_dt := now |};
       world := {| channel_game_id := channel_game_id w;
                   channel_title := title;
                   ttv_stream_titles := ttv_stream_titles w;
                   chat := chat w ++ [reply];
                   calls := calls w ++ [modify_channel None (Some title); send reply] |} |}.
Proof.
  intros HP. destruct w as [gid ttl tbl lines cs]. run. rewrite !HP.
  unfold post, log, patch_channel. cbn. by rewrite <- !app_assoc.
Qed.

(** X4. A moderator's [!title text] changes the channel's title, stamps the
    title time and confirms; it leaves the tracked title and the history to
    the update event. When that event arrives at most 15 seconds later, the
    handler does not announce the title (whatever it posts is the
    announcement of a game change), and still records (text, now) in the
    history and tracks the new title. *)
Theorem bot_title_change_echo_recorded_not_announced U P ctx title update t0 now s w :
  reliable P →
  Context.chatter_moderator ctx = true → title ≠ EmptyString →
  title_tracked s ≠ title →
  ChannelUpdate.title update = title →
  t0 ≤ now ≤ t0 + 15 * datetime.us_per_second →
  let r0 := title_group U P ctx title t0 s w in
  let r := channel_update U P update now (self r0) (world r0) in
  (channel_title (world r0) = title
   ∧ title_tracked (self r0) = title_tracked s
   ∧ ttv_stream_titles (world r0) = ttv_stream_titles w)
  ∧ result r = Returned tt
  ∧ title_tracked (self r) = title
  ∧ ttv_stream_titles (world r) = Sql.upsert title now (ttv_stream_titles w)
  ∧ (∀ line, line ∈ posted (world r0) (world r) →
             line = game_announcement U (ChannelUpdate.category_name update))
  ∧ (ChannelUpdate.category_name update = game_tracked s →
     posted (world r0) (world r) = []).
Proof.
  intros HP Hmod Htitle Hne Hupd Hnow r0 r. subst r r0.
  rewrite (title_group_changed_run U P ctx title t0 s w) by done. cbn [self world].
  split; [done|].
  rewrite channel_update_returns, channel_update_self, channel_update_table,
    channel_update_posted by done.
  cbn [game_tracked title_tracked game_updated_dt title_updated_dt ttv_stream_titles].
  rewrite Hupd. rewrite (bool_decide_eq_true_2 (title_tracked s ≠ title)) by done.
  rewrite (bool_decide_eq_false_2 (datetime.seconds (datetime.sub now t0) > 15))
    by (rewrite seconds_gt_15_same_day;
        unfold datetime.us_per_day, datetime.us_per_second in *; lia).
  cbn [andb]. rewrite app_nil_r.
  split; [done|]. split; [done|]. split; [done|]. split.
  - intros line. destruct (_ && _); [|by intros ?%elem_of_nil].
    by intros ->%list_elem_of_singleton.
  - intros Hg. rewrite (bool_decide_eq_false_2 (game_tracked s ≠ _)); [done|].
    intros H. by apply H.
Qed.

Lemma bot_title_change_echo_recorded_not_announced_witness :
  let r0 := title_group demo_utils demo_platform demo_mod "Chatting" (demo_seconds 2000)
              demo_self demo_world in
  let update := ChannelUpdate.mk "Dota 2" "Chatting" in
  let r := channel_update demo_utils demo_platform update (demo_seconds 2015)
             (self r0) (world r0) in
  (channel_title (world r0) = "Chatting"
   ∧ title_tracked (self r0) = title_tracked demo_self
   ∧ ttv_stream_titles (world r0) = ttv_stream_titles demo_world)
  ∧ result r = Returned tt
  ∧ title_tracked (self r) = "Chatting"
  ∧ ttv_stream_titles (world r)
    = Sql.upsert "Chatting" (demo_seconds 2015) (ttv_stream_titles demo_world)
  ∧ (∀ line, line ∈ posted (world r0) (world r) →
             line = game_announcement demo_utils (ChannelUpdate.category_name update))
  ∧ (ChannelUpdate.category_name update = game_tracked demo_self →
     posted (world r0) (world r) = []).
Proof.
  apply (bot_title_change_echo_recorded_not_announced demo_utils demo_platform demo_mod
           "Chatting" (ChannelUpdate.mk "Dota 2" "Chatting")
           (demo_seconds 2000) (demo_seconds 2015) demo_self demo_world
           demo_platform_reliable eq_refl);
    first [reflexivity | demo_differ | demo_time].
Defined.

(** ** Start-up *)

Lemma start_tracking_run P s w :
  reliable P →
  start_tracking P s w =
    {| result := Returned tt;
       self := {| game_tracked := category_name_of P (channel_game_id w);
                  title_tracked := channel_title w;
                  game_updated_dt := game_updated_dt s;
                  title_updated_dt := title_updated_dt s |};
       world := log fetch_channel_info w |}.
Proof. intros HP. run. by rewrite HP. Qed.

(** X5. After [__init__] and [start_tracking], with no command in between,
    an event that arrives in the first 23 hours and reports another game
    than the channel had at start-up (and the same title) is announced,
    once: the stamp set one hour back keeps the start-up out of the
    15-second window. *)
Theorem first_day_game_change_is_announced U P update now_game now_title now w :
  reliable P →
  ChannelUpdate.category_name update ≠ category_name_of P (channel_game_id w) →
  ChannelUpdate.title update = channel_title w →
  now_game ≤ now < now_game + 23 * 3600 * datetime.us_per_second →
  let r0 := start_tracking P (init now_game now_title) w in
  let r := channel_update U P update now (self r0) (world r0) in
  posted (world r0) (world r) = [game_announcement U (ChannelUpdate.category_name update)]
  ∧ game_tracked (self r) = ChannelUpdate.category_name update.
Proof.
  intros HP Hg Ht Hnow r0 r. subst r r0.
  rewrite start_tracking_run by done. cbn [self world].
  rewrite channel_update_self by done. split; [|done].
  apply channel_update_announces_once;
    [done | cbn; congruence | cbn; congruence |].
  unfold init. cbn [game_updated_dt]. rewrite sub_timedelta_hours_1.
  unfold datetime.us_per_day, datetime.us_per_second in *. lia.
Qed.

Lemma first_day_game_change_is_announced_witness :
  let r0 := start_tracking demo_platform (init 0 0) demo_world in
  let update := ChannelUpdate.mk "Elden Ring" "Watching animes" in
  let r := channel_update demo_utils demo_platform update (demo_seconds 82799)
             (self r0) (world r0) in
  posted (world r0) (world r) = [game_announcement demo_utils "Elden Ring"]
  ∧ game_tracked (self r) = "Elden Ring".
Proof.
  apply (first_day_game_change_is_announced demo_utils demo_platform
           (ChannelUpdate.mk "Elden Ring" "Watching animes") 0 0 (demo_seconds 82799)
           demo_world demo_platform_reliable);
    first [reflexivity | demo_differ | demo_time].
Defined.

(** X6. [start_tracking] makes one call, [fetch_channel_info], and tracks
    the game name and title it answers. An event that then reports these
    same values causes no call and no line, at whatever time it comes. *)
Theorem start_tracking_syncs_with_channel U P update s now w :
  reliable P →
  ChannelUpdate.category_name update = category_name_of P (channel_game_id w) →
  ChannelUpdate.title update = channel_title w →
  let r0 := start_tracking P s w in
  let r := channel_update U P update now (self r0) (world r0) in
  issued w (world r0) = [fetch_channel_info]
  ∧ game_tracked (self r0) = category_name_of P (channel_game_id w)
  ∧ title_tracked (self r0) = channel_title w
  ∧ world r = world r0
  ∧ self r = self r0.
Proof.
  intros HP Hg Ht r0 r. subst r r0.
  rewrite start_tracking_run by done. cbn [self world].
  rewrite (channel_update_run U P HP). destruct w as [gid ttl tbl lines cs].
  cbn [game_tracked title_tracked game_updated_dt title_updated_dt] in *.
  cbn in Hg, Ht. rewrite Hg, Ht.
  rewrite !(bool_decide_eq_false_2 (_ ≠ _)) by (intros H; by apply H).
  unfold issued, log. cbn. rewrite drop_app_length, !app_nil_r. done.
Qed.

Lemma start_tracking_syncs_with_channel_witness :
  let r0 := start_tracking demo_platform (init 0 0) demo_world in
  let update := ChannelUpdate.mk "Dota 2" "Watching animes" in
  let r := channel_update demo_utils demo_platform update (demo_seconds 5)
             (self r0) (world r0) in
  issued demo_world (world r0) = [fetch_channel_info]
  ∧ game_tracked (self r0) = "Dota 2"
  ∧ title_tracked (self r0) = "Watching animes"
  ∧ world r = world r0
  ∧ self r = self r0.
Proof.
  apply (start_tracking_syncs_with_channel demo_utils demo_platform
           (ChannelUpdate.mk "Dota 2" "Watching animes") (init 0 0) (demo_seconds 5)
           demo_world demo_platform_reliable); reflexivity.
Defined.

(** ** [!game]: the query, the search and what the command never touches *)

Lemma game_query U P ctx game_name now s w :
  truthy game_name = false →
  game U P ctx game_name now s w =
    (channel_info <- broadcaster_fetch_channel_info P ;;
     ctx_send P ((if truthy (Some (ChannelInfo.game_name channel_info))
                  then ChannelInfo.game_name channel_info else "No game category")
                 +:+ " " +:+ STV_DankDolmes U)) s w.
Proof. intros Hno. unfold game. by rewrite Hno. Qed.

(** X7. [!game] without an argument (none, or the empty string) is a query
    for everyone, moderator or not: it fetches the channel info and replies
    with the game name, or with "No game category" when the name is empty,
    and changes neither the tracker nor the channel nor the history. *)
Theorem game_without_argument_reports U P ctx game_name now s w :
  reliable P → truthy game_name = false →
  let r := game U P ctx game_name now s w in
  let current := category_name_of P (channel_game_id w) in
  let reply :=
    (if decide (current = EmptyString) then "No game category" else current)
    +:+ " " +:+ STV_DankDolmes U in
  result r = Returned tt
  ∧ self r = s
  ∧ same_channel w (world r)
  ∧ ttv_stream_titles (world r) = ttv_stream_titles w
  ∧ issued w (world r) = [fetch_channel_info; send reply]
  ∧ posted w (world r) = [reply].
Proof.
  intros HP Hno r current reply. subst r reply current.
  rewrite game_query by done. destruct w as [gid ttl tbl lines cs].
  run. rewrite !HP. cbn.
  unfold issued, posted, same_channel. cbn. rewrite <- ?app_assoc, !drop_app_length.
  destruct (category_name_of P gid) eqn:Hname; cbn; done.
Qed.

Lemma game_without_argument_reports_witness :
  let uncategorised :=
    {| channel_game_id := "0"; channel_title := "Watching animes";
       ttv_stream_titles := demo_table; chat := []; calls := [] |} in
  posted demo_world
    (world (game demo_utils demo_platform demo_viewer None (demo_seconds 5000)
              demo_self demo_world)) = ["Dota 2 DankDolmes"]
  ∧ posted uncategorised
      (world (game demo_utils demo_platform demo_viewer (Some EmptyString)
                (demo_seconds 5000) demo_self uncategorised))
    = ["No game category DankDolmes"].
Proof.
  pose proof (game_without_argument_reports demo_utils demo_platform demo_viewer None
                (demo_seconds 5000) demo_self demo_world demo_platform_reliable eq_refl)
    as (_ & _ & _ & _ & _ & H1).
  pose proof (game_without_argument_reports demo_utils demo_platform demo_viewer
                (Some EmptyString) (demo_seconds 5000) demo_self
                {| channel_game_id := "0"; channel_title := "Watching animes";
                   ttv_stream_titles := demo_table; chat := []; calls := [] |}
                demo_platform_reliable eq_refl)
    as (_ & _ & _ & _ & _ & H2).
  split; [exact H1|exact H2].
Defined.

(** X8. A moderator's [!game name] (not the clearing keyword) searches for
    the name after the synonym table. With no match it replies so and
    changes nothing: no stamp, no call to [modify_channel]. With matches it
    takes the first: the channel gets that game's id, the reply quotes that
    game's name (not the argument), the game stamp is now; the tracked game
    is left for the update event to set. *)
Theorem game_search_decides U P ctx arg now s w :
  reliable P →
  Context.chatter_moderator ctx = true → arg ≠ EmptyString → lower arg ≠ "clear" →
  let name := default arg (game_keywords !! arg) in
  let r := game U P ctx (Some arg) now s w in
  result r = Returned tt
  ∧ game_tracked (self r) = game_tracked s
  ∧ channel_title (world r) = channel_title w
  ∧ ttv_stream_titles (world r) = ttv_stream_titles w
  ∧ match games_named P [name] with
    | [] =>
        let reply := "Couldn't find any games with such a name " +:+ STV_How2Read U in
        self r = s
        ∧ channel_game_id (world r) = channel_game_id w
        ∧ issued w (world r) = [fetch_games [name]; send reply]
        ∧ posted w (world r) = [reply]
    | first :: _ =>
        let reply :=
          "Changed game to " +:+ dq +:+ Game.name first +:+ dq +:+ " " +:+ STV_DankMods U in
        game_updated_dt (self r) = now
        ∧ channel_game_id (world r) = Game.id first
        ∧ issued w (world r)
          = [fetch_games [name]; modify_channel (Some (Game.id first)) None; send reply]
        ∧ posted w (world r) = [reply]
    end.
Proof.
  intros HP Hmod Harg Hclear name r. subst r name.
  destruct (games_named P _) as [|first others] eqn:Hfound.
  - rewrite game_lookup by done. destruct w as [gid ttl tbl lines cs].
    run. rewrite HP. cbn. rewrite Hfound. cbn. rewrite HP.
    unfold issued, posted. cbn. rewrite <- ?app_assoc, !drop_app_length.
    by destruct s.
  - rewrite (game_found_run U P ctx arg first) by (done || by rewrite Hfound).
    unfold issued, posted. cbn. by rewrite !drop_app_length.
Qed.

Lemma game_search_decides_witness :
  let found := game demo_utils demo_platform demo_mod (Some "er") (demo_seconds 5000)
                 demo_self demo_world in
  let missed := game demo_utils demo_platform demo_mod (Some "ER") (demo_seconds 5000)
                  demo_self demo_world in
  (channel_game_id (world found) = "512953"
   ∧ game_updated_dt (self found) = demo_seconds 5000
   ∧ posted demo_world (world found)
     = ["Changed game to " +:+ dq +:+ "Elden Ring" +:+ dq +:+ " DankMods"])
  ∧ (self missed = demo_self
     ∧ channel_game_id (world missed) = "29595"
     ∧ posted demo_world (world missed)
       = ["Couldn't find any games with such a name How2Read"]).
Proof.
  pose proof (game_search_decides demo_utils demo_platform demo_mod "er"
                (demo_seconds 5000) demo_self demo_world demo_platform_reliable eq_refl
                ltac:(discriminate) ltac:(discriminate))
    as (_ & _ & _ & _ & Hs & Hid & _ & Hp).
  pose proof (game_search_decides demo_utils demo_platform demo_mod "ER"
                (demo_seconds 5000) demo_self demo_world demo_platform_reliable eq_refl
                ltac:(discriminate) ltac:(discriminate))
    as (_ & _ & _ & _ & Hs' & Hid' & _ & Hp').
  split.
  - split; [exact Hid|]. split; [exact Hs|exact Hp].
  - split; [exact Hs'|]. split; [exact Hid'|exact Hp'].
Defined.

Ltac in_list :=
  repeat first [ apply list_elem_of_here | apply list_elem_of_further ].

Ltac frame_leaf :=
  unfold issued, posted; cbn;
  rewrite <- ?app_assoc, ?drop_app_length, ?drop_all; cbn;
  repeat match goal with |- _ ∧ _ => split end;
  first [ done | lia | left; done
        | right; split; [done|]; eexists; by in_list
        | right; eexists; split; [by in_list|done] ].

(** X9. Whatever its argument, its caller and the collaborators do,
    [!game] never changes the tracked game or title, the title stamp, the
    channel's title or the history, and posts at most one line. It changes
    the game stamp only to now, and the channel's category only to the id it
    passed, and either only in a run in which it called [modify_channel]. *)
Theorem game_frame U P ctx game_name now s w :
  let r := game U P ctx game_name now s w in
  game_tracked (self r) = game_tracked s
  ∧ title_tracked (self r) = title_tracked s
  ∧ title_updated_dt (self r) = title_updated_dt s
  ∧ channel_title (world r) = channel_title w
  ∧ ttv_stream_titles (world r) = ttv_stream_titles w
  ∧ (length (posted w (world r)) ≤ 1)%nat
  ∧ (game_updated_dt (self r) = game_updated_dt s
     ∨ (game_updated_dt (self r) = now
        ∧ ∃ game_id, modify_channel (Some game_id) None ∈ issued w (world r)))
  ∧ (channel_game_id (world r) = channel_game_id w
     ∨ ∃ game_id, modify_channel (Some game_id) None ∈ issued w (world r)
                  ∧ channel_game_id (world r) = game_id).
Proof.
  intros r. subst r. destruct w as [gid ttl tbl lines cs].
  destruct game_name as [arg|]; [destruct (decide (arg = EmptyString)) as [->|Harg]|].
  - run. case_raises; frame_leaf.
  - destruct (Context.chatter_moderator ctx) eqn:Hmod.
    + destruct (decide (lower arg = "clear")).
      * rewrite game_clear by done. run. case_raises; frame_leaf.
      * rewrite game_lookup by done.
        run. destruct (raises P _ (fetch_games _)); cbn; [frame_leaf|].
        destruct (head (games_named P _)); cbn; case_raises; frame_leaf.
    + rewrite game_non_mod by done. run. case_raises; frame_leaf.
  - run. case_raises; frame_leaf.
Qed.

(** ** [!title]: the query and what the title commands never touch *)

(** X10. [!title] without text is a query for everyone, moderator or not:
    it fetches the channel info and replies with the title as it is (an
    empty title gives an empty line), and changes neither the tracker nor
    the channel nor the history. *)
Theorem title_without_argument_reports U P ctx now s w :
  reliable P →
  let r := title_group U P ctx EmptyString now s w in
  result r = Returned tt
  ∧ self r = s
  ∧ same_channel w (world r)
  ∧ ttv_stream_titles (world r) = ttv_stream_titles w
  ∧ issued w (world r) = [fetch_channel_info; send (channel_title w)]
  ∧ posted w (world r) = [channel_title w].
Proof.
  intros HP r. subst r. destruct w as [gid ttl tbl lines cs].
  run. rewrite !HP. cbn.
  unfold issued, posted, same_channel. cbn.
  by rewrite <- ?app_assoc, !drop_app_length.
Qed.

Lemma title_without_argument_reports_witness :
  let r := title_group demo_utils demo_platform demo_viewer EmptyString
             (demo_seconds 5000) demo_self demo_world in
  reliable demo_platform
  ∧ (result r = Returned tt
     ∧ self r = demo_self
     ∧ same_channel demo_world (world r)
     ∧ ttv_stream_titles (world r) = ttv_stream_titles demo_world
     ∧ issued demo_world (world r) = [fetch_channel_info; send "Watching animes"]
     ∧ posted demo_world (world r) = ["Watching animes"]).
Proof.
  split; [exact demo_platform_reliable|].
  exact (title_without_argument_reports demo_utils demo_platform demo_viewer
           (demo_seconds 5000) demo_self demo_world demo_platform_reliable).
Defined.

(** X11. Whatever their argument, their caller and the collaborators do,
    [!title], [!title set] and [!title restore] never change the tracked
    game or title, the game stamp, the channel's category or the history (a
    title enters the history through the update event only), and post at
    most one line. They change the title stamp only to now, and the
    channel's title only to the one they passed, and either only in a run in
    which they called [modify_channel]. *)
Theorem title_commands_frame U P ctx now s w :
  let framed (r : Run unit) :=
    game_tracked (self r) = game_tracked s
    ∧ title_tracked (self r) = title_tracked s
    ∧ game_updated_dt (self r) = game_updated_dt s
    ∧ channel_game_id (world r) = channel_game_id w
    ∧ ttv_stream_titles (world r) = ttv_stream_titles w
    ∧ (length (posted w (world r)) ≤ 1)%nat
    ∧ (title_updated_dt (self r) = title_updated_dt s
       ∨ (title_updated_dt (self r) = now
          ∧ ∃ title, modify_channel None (Some title) ∈ issued w (world r)))
    ∧ (channel_title (world r) = channel_title w
       ∨ ∃ title, modify_channel None (Some title) ∈ issued w (world r)
                  ∧ channel_title (world r) = title) in
  (∀ title, framed (title_group U P ctx title now s w))
  ∧ (∀ title, framed (title_set U P ctx title now s w))
  ∧ (∀ offset, framed (title_restore U P ctx offset now s w)).
Proof.
  intros framed. subst framed. cbv beta.
  destruct w as [gid ttl tbl lines cs].
  split; [|split].
  - intros title. destruct (decide (title = EmptyString)) as [->|Harg].
    + run. case_raises; frame_leaf.
    + destruct (Context.chatter_moderator ctx) eqn:Hmod.
      * rewrite title_group_mod by done. run. case_raises; frame_leaf.
      * rewrite title_group_non_mod by done. run. case_raises; frame_leaf.
  - intros title. run. case_raises; frame_leaf.
  - intros offset. unfold title_restore, bot_pool_fetchval.
    destruct ((offset <? 0) || (int64_max <? offset)); [run; frame_leaf|].
    run. destruct (raises P _ (pool_fetchval _)); cbn; [frame_leaf|].
    destruct (Sql.select_title offset tbl); cbn; case_raises; frame_leaf.
Qed.

(** ** The order of the history *)

#[global] Instance newer_first_transitive : Transitive Sql.newer_first.
Proof. intros r1 r2 r3. unfold Sql.newer_first. lia. Qed.

(** A row that is strictly newer than every other row comes first,
    whichever way the rows of equal edit time are ordered. *)
Lemma newest_row_first (m : gmap string Z) (rows : list (string * Z)) (t : string) (e : Z) :
  Sorted Sql.newer_first rows → rows ≡ₚ map_to_list m →
  m !! t = Some e →
  (∀ t' e', m !! t' = Some e' → t' ≠ t → e' < e) →
  ∃ older, rows = (t, e) :: older
           ∧ Sorted Sql.newer_first older
           ∧ older ≡ₚ map_to_list (delete t m).
Proof.
  intros Hsorted Hperm Ht Hnewest.
  assert (Hin : (t, e) ∈ rows) by (rewrite Hperm; by apply elem_of_map_to_list).
  destruct rows as [|[t' e'] older]; [by apply elem_of_nil in Hin|].
  assert (Hhead : (t', e') = (t, e)).
  { apply elem_of_cons in Hin as [Hin|Hin]; [done|].
    apply Sorted_StronglySorted in Hsorted; [|apply _].
    apply StronglySorted_inv in Hsorted as [_ Hall].
    rewrite Forall_forall in Hall. specialize (Hall _ Hin).
    unfold Sql.newer_first in Hall. cbn in Hall.
    assert (Hrow : m !! t' = Some e').
    { apply elem_of_map_to_list. rewrite <- Hperm. apply list_elem_of_here. }
    destruct (decide (t' = t)) as [->|Hne]; [congruence|].
    specialize (Hnewest _ _ Hrow Hne). lia. }
  injection Hhead as -> ->. exists older. split; [done|]. split.
  - by apply Sorted_inv in Hsorted as [? _].
  - apply (Permutation_cons_inv (a := (t, e))).
    rewrite Hperm. symmetry. by apply map_to_list_delete.
Qed.

Lemma newest_row_is_offset_0 (tbl : gmap string Z) (t : string) (e : Z) :
  tbl !! t = Some e →
  (∀ t' e', tbl !! t' = Some e' → t' ≠ t → e' < e) →
  ∃ older, Sql.order_by_edit_time_desc tbl = (t, e) :: older
           ∧ Sorted Sql.newer_first older
           ∧ older ≡ₚ map_to_list (delete t tbl).
Proof.
  apply newest_row_first;
    [apply order_by_edit_time_desc_sorted|apply order_by_edit_time_desc_rows].
Qed.

(** After a title is written at a time later than every edit time of the
    table, it is the newest row and the row that was the newest is next. *)
Lemma upsert_pushes_down (tbl : gmap string Z) (title previous : string) (now e : Z) :
  tbl !! previous = Some e →
  (∀ t' e', tbl !! t' = Some e' → t' ≠ previous → e' < e) →
  title ≠ previous → e < now →
  Sql.select_title 0 (Sql.upsert title now tbl) = Some title
  ∧ Sql.select_title 1 (Sql.upsert title now tbl) = Some previous.
Proof.
  intros Hprev Hnewest Hne Hnow.
  destruct (newest_row_is_offset_0 (Sql.upsert title now tbl) title now)
    as (older & Horder & Hsorted & Hperm).
  { apply upsert_lookup. }
  { intros t' e' Hrow Ht'. unfold Sql.upsert in Hrow.
    rewrite lookup_insert_ne in Hrow by done.
    destruct (decide (t' = previous)) as [->|Hp]; [|specialize (Hnewest _ _ Hrow Hp); lia].
    rewrite Hprev in Hrow. injection Hrow as <-. lia. }
  unfold Sql.upsert in Hperm. rewrite delete_insert_eq in Hperm.
  destruct (newest_row_first (delete title tbl) older previous e)
    as (rest & -> & _ & _); [done|done|by rewrite lookup_delete_ne| |].
  { intros t' e' Hrow Ht'. apply lookup_delete_Some in Hrow as [_ Hrow]. eauto. }
  unfold Sql.select_title. by rewrite Horder.
Qed.

(** ** [!title restore] on the history as the events leave it *)

Lemma title_restore_hit U P ctx k now s w title :
  reliable P → 0 ≤ k ≤ int64_max →
  Sql.select_title k (ttv_stream_titles w) = Some title →
  title_restore U P ctx k now s w =
    let reply := "Set the title to " +:+ ordinal U k +:+ " in history: " +:+ title in
    {| result := Returned tt;
       self := {| game_tracked := game_tracked s;
                  title_tracked := title_tracked s;
                  game_updated_dt := game_updated_dt s;
                  title_updated_dt := now |};
       world := {| channel_game_id := channel_game_id w;
                   channel_title := title;
                   ttv_stream_titles := ttv_stream_titles w;
                   chat := chat w ++ [reply];
                   calls := calls w ++ [pool_fetchval k;
                                        modify_channel None (Some title);
                                        send reply] |} |}.
Proof.
  intros HP Hk Hrow. rewrite title_restore_fetched by done. rewrite Hrow.
  destruct w as [gid ttl tbl lines cs]. run. rewrite !HP.
  unfold post, log, patch_channel. cbn. by rewrite <- !app_assoc.
Qed.

Lemma title_restore_miss U P ctx k now s w :
  reliable P → 0 ≤ k ≤ int64_max →
  Sql.select_title k (ttv_stream_titles w) = None →
  title_restore U P ctx k now s w =
    let reply := "No change: the database doesn't keep such title." in
    {| result := Returned tt;
       self := s;
       world := {| channel_game_id := channel_game_id w;
                   channel_title := channel_title w;
                   ttv_stream_titles := ttv_stream_titles w;
                   chat := chat w ++ [reply];
                   calls := calls w ++ [pool_fetchval k; send reply] |} |}.
Proof.
  intros HP Hk Hrow. rewrite title_restore_fetched by done. rewrite Hrow.
  destruct w as [gid ttl tbl lines cs]. run. rewrite !HP.
  unfold post, log. cbn. by rewrite <- !app_assoc.
Qed.

Lemma order_by_edit_time_desc_length (tbl : gmap string Z) :
  length (Sql.order_by_edit_time_desc tbl) = size tbl.
Proof. by rewrite order_by_edit_time_desc_rows, length_map_to_list. Qed.

Lemma select_title_Some (tbl : gmap string Z) (k : Z) (title : string) :
  Sql.select_title k tbl = Some title → is_Some (tbl !! title).
Proof.
  unfold Sql.select_title. intros Hk.
  apply fmap_Some in Hk as ([t e] & Hrow & ->).
  apply list_elem_of_lookup_2 in Hrow.
  rewrite order_by_edit_time_desc_rows in Hrow.
  apply elem_of_map_to_list in Hrow. by exists e.
Qed.

(** X12. The history's newest row is the title [previous]; an update event
    then reports another title, at a time later than that row's. After the
    event, [!title restore] with its default offset 1 sets the channel's
    title back to [previous]: the title the event brought is at offset 0. *)
Theorem restore_returns_to_previous_title U P ctx update previous e now now' s w :
  reliable P →
  ttv_stream_titles w !! previous = Some e →
  (∀ t' e', ttv_stream_titles w !! t' = Some e' → t' ≠ previous → e' < e) →
  ChannelUpdate.title update ≠ previous →
  title_tracked s ≠ ChannelUpdate.title update →
  e < now →
  let r1 := channel_update U P update now s w in
  let r2 := title_restore U P ctx 1 now' (self r1) (world r1) in
  Sql.select_title 0 (ttv_stream_titles (world r1)) = Some (ChannelUpdate.title update)
  ∧ result r2 = Returned tt
  ∧ channel_title (world r2) = previous
  ∧ title_updated_dt (self r2) = now'
  ∧ posted (world r1) (world r2)
    = ["Set the title to " +:+ ordinal U 1 +:+ " in history: " +:+ previous].
Proof.
  intros HP Hprev Hnewest Hne Htracked Hnow r1 r2.
  assert (Htbl : ttv_stream_titles (world r1)
                 = Sql.upsert (ChannelUpdate.title update) now (ttv_stream_titles w)).
  { subst r1. rewrite channel_update_table by done.
    by rewrite bool_decide_eq_true_2. }
  destruct (upsert_pushes_down (ttv_stream_titles w) (ChannelUpdate.title update)
              previous now e) as [H0 H1]; [done..|].
  rewrite <- Htbl in H0, H1. split; [done|].
  subst r2. rewrite (title_restore_hit U P ctx 1 now' (self r1) (world r1) previous)
    by first [done | rewrite int64_max_value; lia].
  cbn. split; [done|]. split; [done|]. split; [done|]. by apply posted_app.
Qed.

Lemma restore_returns_to_previous_title_witness :
  let update := ChannelUpdate.mk "Dota 2" "Chatting" in
  let r1 := channel_update demo_utils demo_platform update (demo_seconds 5000)
              demo_self demo_world in
  let r2 := title_restore demo_utils demo_platform demo_mod 1 (demo_seconds 6000)
              (self r1) (world r1) in
  ttv_stream_titles demo_world !! "Watching animes" = Some (demo_seconds 400)
  ∧ Sql.select_title 0 (ttv_stream_titles (world r1)) = Some "Chatting"
  ∧ result r2 = Returned tt
  ∧ channel_title (world r2) = "Watching animes"
  ∧ title_updated_dt (self r2) = demo_seconds 6000
  ∧ posted (world r1) (world r2)
    = ["Set the title to 1st in history: Watching animes"].
Proof.
  split; [vm_compute; reflexivity|].
  apply (restore_returns_to_previous_title demo_utils demo_platform demo_mod
           (ChannelUpdate.mk "Dota 2" "Chatting") "Watching animes" (demo_seconds 400)
           (demo_seconds 5000) (demo_seconds 6000) demo_self demo_world
           demo_platform_reliable).
  - vm_compute. reflexivity.
  - intros t' e' Hrow Ht'. unfold demo_world, demo_table in Hrow. cbn in Hrow.
    repeat (rewrite lookup_insert in Hrow; case_decide; simplify_eq;
            [vm_compute; reflexivity|]).
    rewrite lookup_singleton in Hrow. case_decide; simplify_eq.
  - demo_differ.
  - demo_differ.
  - vm_compute. reflexivity.
Defined.

(** X13. [!title restore k] never writes to the history. With [k] in the
    range of [bigint], [0 <= k <= 2^63 - 1], it finds a row exactly when the
    history has more than [k] rows: when it does, the title it sets is one
    of the history; when it does not (an empty history, or an offset past
    the oldest row), it replies "No change" and leaves tracker and channel
    alone. With [k > 2^63 - 1] the offset is refused where the row is
    fetched: the handler raises, posts nothing and changes nothing. *)
Theorem title_restore_within_history U P ctx k now s w :
  reliable P → 0 ≤ k →
  let r := title_restore U P ctx k now s w in
  ttv_stream_titles (world r) = ttv_stream_titles w
  ∧ if decide (k ≤ int64_max)
    then result r = Returned tt
         ∧ if decide (k < Z.of_nat (size (ttv_stream_titles w)))
           then is_Some (ttv_stream_titles w !! channel_title (world r))
                ∧ title_updated_dt (self r) = now
                ∧ posted w (world r)
                  = ["Set the title to " +:+ ordinal U k +:+ " in history: "
                     +:+ channel_title (world r)]
           else self r = s
                ∧ same_channel w (world r)
                ∧ posted w (world r)
                  = ["No change: the database doesn't keep such title."]
    else result r = Raised (pool_fetchval k)
         ∧ self r = s
         ∧ same_channel w (world r)
         ∧ posted w (world r) = []
         ∧ issued w (world r) = [pool_fetchval k].
Proof.
  intros HP Hk r. subst r.
  destruct (decide (k ≤ int64_max)) as [Hmax|Hmax].
  - destruct (Sql.select_title k (ttv_stream_titles w)) as [title|] eqn:Hrow.
    + rewrite (title_restore_hit U P ctx k now s w title) by done. cbn.
      split; [done|]. split; [done|].
      rewrite decide_True.
      * split; [by eapply select_title_Some|]. split; [done|]. by apply posted_app.
      * unfold Sql.select_title in Hrow. apply fmap_Some in Hrow as (row & Hrow & _).
        apply lookup_lt_Some in Hrow. rewrite order_by_edit_time_desc_length in Hrow.
        lia.
    + rewrite (title_restore_miss U P ctx k now s w) by done. cbn.
      split; [done|]. split; [done|].
      rewrite decide_False.
      * split; [done|]. split; [done|]. by apply posted_app.
      * unfold Sql.select_title in Hrow. apply fmap_None in Hrow.
        apply lookup_ge_None in Hrow. rewrite order_by_edit_time_desc_length in Hrow.
        lia.
  - rewrite title_restore_refused by lia.
    destruct w as [gid ttl tbl lines cs].
    unfold issued, posted, same_channel, log. cbn.
    by rewrite drop_app_length, drop_all.
Qed.

Lemma title_restore_within_history_witness :
  let restore k w :=
    title_restore demo_utils demo_platform demo_mod k (demo_seconds 5000) demo_self w in
  let no_history :=
    {| channel_game_id := "29595"; channel_title := "Watching animes";
       ttv_stream_titles := ∅; chat := []; calls := [] |} in
  channel_title (world (restore 0 demo_world)) = "Watching animes"
  ∧ channel_title (world (restore 3 demo_world)) = "Dota 2 grind"
  ∧ posted demo_world (world (restore 4 demo_world))
    = ["No change: the database doesn't keep such title."]
  ∧ posted no_history (world (restore 0 no_history))
    = ["No change: the database doesn't keep such title."]
  ∧ (result (restore (2 ^ 63) demo_world) = Raised (pool_fetchval (2 ^ 63))
     ∧ posted demo_world (world (restore (2 ^ 63) demo_world)) = []).
Proof.
  cbv zeta.
  pose proof (title_restore_within_history demo_utils demo_platform demo_mod 4
                (demo_seconds 5000) demo_self demo_world demo_platform_reliable
                ltac:(lia)) as (_ & H4).
  pose proof (title_restore_within_history demo_utils demo_platform demo_mod 0
                (demo_seconds 5000) demo_self
                {| channel_game_id := "29595"; channel_title := "Watching animes";
                   ttv_stream_titles := ∅; chat := []; calls := [] |}
                demo_platform_reliable ltac:(lia)) as (_ & H0).
  pose proof (title_restore_within_history demo_utils demo_platform demo_mod (2 ^ 63)
                (demo_seconds 5000) demo_self demo_world demo_platform_reliable
                ltac:(lia)) as (_ & Hbig).
  rewrite decide_True in H4 by (rewrite int64_max_value; lia).
  rewrite decide_True in H0 by (rewrite int64_max_value; lia).
  rewrite decide_False in Hbig by (rewrite int64_max_value; lia).
  destruct H4 as (_ & H4), H0 as (_ & H0).
  rewrite decide_False in H4 by (vm_compute; discriminate).
  rewrite decide_False in H0 by (vm_compute; discriminate).
  destruct H4 as (_ & _ & H4), H0 as (_ & _ & H0), Hbig as (Hraised & _ & _ & Hnone & _).
  split; [vm_compute; reflexivity|]. split; [vm_compute; reflexivity|].
  split; [exact H4|]. split; [exact H0|]. split; [exact Hraised|exact Hnone].
Defined.

(** ** Pruning, alone and after a recorded title *)

Lemma clear_the_database_run P now s w :
  reliable P →
  clear_the_database P now s w =
    let cutoff_dt := now - 30 * datetime.us_per_day in
    {| result := Returned tt;
       self := s;
       world := {| channel_game_id := channel_game_id w;
                   channel_title := channel_title w;
                   ttv_stream_titles := Sql.delete_older cutoff_dt (ttv_stream_titles w);
                   chat := chat w;
                   calls := calls w ++ [pool_execute_delete cutoff_dt] |} |}.
Proof.
  intros HP. unfold clear_the_database. rewrite sub_timedelta_days_30.
  destruct w as [gid ttl tbl lines cs]. run. by rewrite HP.
Qed.

Lemma delete_older_later (tbl : gmap string Z) (cutoff1 cutoff2 : Z) :
  cutoff1 ≤ cutoff2 →
  Sql.delete_older cutoff2 (Sql.delete_older cutoff1 tbl) = Sql.delete_older cutoff2 tbl.
Proof.
  intros Hle. apply map_eq. intros title. apply option_eq. intros e.
  rewrite !delete_older_lookup. split; [tauto|]. intros [? ?]. repeat split; [done|lia|done].
Qed.

(** X14. Pruning only removes rows, and a later pruning covers an earlier
    one: after stream-offline at [now1] and again at [now2 >= now1] the
    history is what a single stream-offline at [now2] leaves. *)
Theorem pruning_later_covers_earlier P now1 now2 s w :
  reliable P → now1 ≤ now2 →
  let r1 := clear_the_database P now1 s w in
  let r2 := clear_the_database P now2 (self r1) (world r1) in
  ttv_stream_titles (world r1) ⊆ ttv_stream_titles w
  ∧ ttv_stream_titles (world r2) ⊆ ttv_stream_titles (world r1)
  ∧ ttv_stream_titles (world r2)
    = ttv_stream_titles (world (clear_the_database P now2 s w))
  ∧ (size (ttv_stream_titles (world r2)) ≤ size (ttv_stream_titles w))%nat.
Proof.
  intros HP Hle r1 r2. subst r2 r1.
  rewrite !clear_the_database_run by done. cbn.
  assert (Hsub : ∀ c (m : gmap string Z), Sql.delete_older c m ⊆ m)
    by (intros c m; apply map_filter_subseteq).
  split; [apply Hsub|]. split; [apply Hsub|].
  rewrite delete_older_later by lia. split; [done|].
  apply map_subseteq_size, Hsub.
Qed.

Lemma pruning_later_covers_earlier_witness :
  let day := datetime.us_per_day in
  let r1 := clear_the_database demo_platform (30 * day + demo_seconds 150)
              demo_self demo_world in
  let r2 := clear_the_database demo_platform (30 * day + demo_seconds 350)
              (self r1) (world r1) in
  size (ttv_stream_titles (world r1)) = 3%nat
  ∧ size (ttv_stream_titles (world r2)) = 1%nat
  ∧ ttv_stream_titles (world r2)
    = ttv_stream_titles
        (world (clear_the_database demo_platform (30 * day + demo_seconds 350)
                  demo_self demo_world)).
Proof.
  pose proof (pruning_later_covers_earlier demo_platform
                (30 * datetime.us_per_day + demo_seconds 150)
                (30 * datetime.us_per_day + demo_seconds 350) demo_self demo_world
                demo_platform_reliable ltac:(demo_time_le)) as (_ & _ & Heq & _).
  split; [vm_compute; reflexivity|]. split; [vm_compute; reflexivity|]. exact Heq.
Defined.

(** X15. A title the update event recorded at [now] is still in the history
    after a stream-offline at [now'] exactly when [now'] is at most 30 days
    after [now]. *)
Theorem recorded_title_outlives_pruning U P update now now' s w :
  reliable P →
  title_tracked s ≠ ChannelUpdate.title update →
  let r1 := channel_update U P update now s w in
  let r2 := clear_the_database P now' (self r1) (world r1) in
  ttv_stream_titles (world r2) !! ChannelUpdate.title update
  = if decide (now' ≤ now + 30 * datetime.us_per_day) then Some now else None.
Proof.
  intros HP Hne r1 r2.
  assert (Htbl : ttv_stream_titles (world r1)
                 = Sql.upsert (ChannelUpdate.title update) now (ttv_stream_titles w)).
  { subst r1. rewrite channel_update_table by done.
    by rewrite bool_decide_eq_true_2. }
  subst r2. rewrite clear_the_database_run by done.
  cbn [world ttv_stream_titles]. rewrite Htbl.
  case_decide as Hage.
  - apply delete_older_lookup. split; [apply upsert_lookup|lia].
  - apply eq_None_not_Some. intros [e He].
    apply delete_older_lookup in He as [He Hkeep].
    rewrite upsert_lookup in He. injection He as <-. lia.
Qed.

Lemma recorded_title_outlives_pruning_witness :
  let update := ChannelUpdate.mk "Dota 2" "Chatting" in
  let r1 := channel_update demo_utils demo_platform update (demo_seconds 5000)
              demo_self demo_world in
  let day := datetime.us_per_day in
  ttv_stream_titles
    (world (clear_the_database demo_platform (30 * day + demo_seconds 5000)
              (self r1) (world r1))) !! "Chatting" = Some (demo_seconds 5000)
  ∧ ttv_stream_titles
      (world (clear_the_database demo_platform (30 * day + demo_seconds 5001)
                (self r1) (world r1))) !! "Chatting" = None.
Proof.
  cbv zeta. split.
  - exact (recorded_title_outlives_pruning demo_utils demo_platform
             (ChannelUpdate.mk "Dota 2" "Chatting") (demo_seconds 5000)
             (30 * datetime.us_per_day + demo_seconds 5000) demo_self demo_world
             demo_platform_reliable ltac:(discriminate)).
  - exact (recorded_title_outlives_pruning demo_utils demo_platform
             (ChannelUpdate.mk "Dota 2" "Chatting") (demo_seconds 5000)
             (30 * datetime.us_per_day + demo_seconds 5001) demo_self demo_world
             demo_platform_reliable ltac:(discriminate)).
Defined.

(** ** [!title history] *)

From Stdlib Require Import DecimalString.

(** [str(n)] of an [int], as an f-string prints it. *)
Definition str_of_int (n : Z) : string := NilZero.string_of_int (Z.to_int n).

(** [SELECT title ... ORDER BY edit_time DESC LIMIT $1 OFFSET 1]: the titles
    of at most [number] rows after the newest one, newest first. *)
Definition select_titles (number : Z) (tbl : gmap string Z) : list string :=
  fst <$> take (Z.to_nat number) (drop 1 (Sql.order_by_edit_time_desc tbl)).

Section TitleHistory.

Context (P : Platform).

(** [self.bot.pool.fetch(query, number)] with the query above. The handler
    is embedded for any behaviour of this read. *)
Context (bot_pool_fetch : Z → M (list string)).

(** The loop [for count, saved_title in enumerate(history_titles, start=..)]
    with its [ctx.send]. *)
Fixpoint send_numbered (count : Z) (history_titles : list string) : M unit :=
  match history_titles with
  | [] => ret tt
  | saved_title :: rest =>
      ctx_send P (str_of_int count +:+ ". " +:+ saved_title) ;;
      send_numbered (count + 1) rest
  end.

(** The body of [!title history], behind the [is_moderator] guard. *)
Definition title_history (ctx : Context.t) (number : Z) : M unit :=
  history_titles <- bot_pool_fetch number ;;
  match history_titles with
  | _ :: _ => send_numbered 1 history_titles
  | [] => ctx_send P "Database doesn't have any titles saved."
  end.

End TitleHistory.

(** The read answers with the rows of its query and changes nothing. *)
Definition answers (bot_pool_fetch : Z → M (list string)) : Prop :=
  ∀ number s w,
    0 ≤ number →
    bot_pool_fetch number s w
    = mk_run (Returned (select_titles number (ttv_stream_titles w))) s w.

Definition demo_pool_fetch : Z → M (list string) :=
  λ number s w, mk_run (Returned (select_titles number (ttv_stream_titles w))) s w.

Lemma demo_pool_fetch_answers : answers demo_pool_fetch.
Proof. by intros number s w _. Qed.

(** The line of the [i]-th entry (from 0) of a listing that counts from [count]. *)
Definition numbered (count : Z) (i : nat) (saved_title : string) : string :=
  str_of_int (count + Z.of_nat i) +:+ ". " +:+ saved_title.

Arguments numbered : simpl never.

Lemma send_numbered_run P count history_titles s w :
  reliable P →
  send_numbered P count history_titles s w =
    {| result := Returned tt;
       self := s;
       world := {| channel_game_id := channel_game_id w;
                   channel_title := channel_title w;
                   ttv_stream_titles := ttv_stream_titles w;
                   chat := chat w ++ imap (numbered count) history_titles;
                   calls := calls w ++ (send <$> imap (numbered count) history_titles) |} |}.
Proof.
  intros HP. revert count w.
  induction history_titles as [|saved_title rest IH]; intros count w.
  - destruct w. cbn. unfold ret. by rewrite !app_nil_r.
  - cbn [send_numbered]. unfold bind. rewrite ctx_send_run, HP.
    rewrite IH.
    assert (Hshift : imap (numbered (count + 1)) rest = imap (numbered count ∘ S) rest).
    { apply imap_ext. intros i t _. unfold numbered. cbn. do 2 f_equal. lia. }
    rewrite Hshift. cbn. rewrite <- !app_assoc. cbn.
    replace (numbered count 0 saved_title)
      with (str_of_int count +:+ ". " +:+ saved_title); [done|].
    unfold numbered. cbn. by rewrite Z.add_0_r.
Qed.

Lemma select_titles_length (number : Z) (tbl : gmap string Z) :
  0 ≤ number →
  length (select_titles number tbl)
  = Nat.min (Z.to_nat number) (size tbl - 1).
Proof.
  intros Hn. unfold select_titles.
  by rewrite length_fmap, length_take, length_drop, order_by_edit_time_desc_length.
Qed.

(** The [k]-th entry of the listing is the row [OFFSET k] selects. *)
Lemma select_titles_lookup (number k : Z) (tbl : gmap string Z) :
  1 ≤ k ≤ number →
  select_titles number tbl !! Z.to_nat (k - 1) = Sql.select_title k tbl.
Proof.
  intros Hk. unfold select_titles, Sql.select_title.
  rewrite list_lookup_fmap, lookup_take_lt by lia. rewrite lookup_drop.
  by replace (1 + Z.to_nat (k - 1))%nat with (Z.to_nat k) by lia.
Qed.




